(** * Personal Finance Coach agent ([app.js]): model and verified properties

    [app.js] is glue code: it reads [documents/transactions.csv], splits it
    into chunks, embeds the chunks into an in-memory vector store, wraps a
    similarity search as the [TransactionRetriever] tool, and runs a
    read-eval-print loop around an agent executor.

    The functions of [app.js] are embedded one for one.  What [app.js] only
    calls (the text splitter, the vector store, the agent executor, the
    service clients) is modelled from the design document and marked as such.
    What lives outside the program (file system, credential, embedding
    service, chat model) is gathered in [Env]; standard input is a [Stdin]:
    the lines in their order of arrival, each with or without a question
    pending, and how the stream ends. *)

From Stdlib Require Import String Ascii List ZArith Lia Bool Arith.
From Stdlib Require Import Sorted Permutation.
Import ListNotations.
Open Scope string_scope.
Open Scope nat_scope.

(* ================================================================== *)
(** * JavaScript strings *)

Module JSString.

Definition LF : string := String "010"%char EmptyString.
Definition dquote : string := String "034"%char EmptyString.

(** [String.prototype.toLowerCase] on one code unit.  Only the letters
    [A]-[Z] are mapped here.  No character outside ASCII lower-cases to one
    of [e], [x], [i], [t] alone, so the comparison with ['exit'] in [main]
    sees exactly this function. *)
Definition lower (c : ascii) : ascii :=
  let n := nat_of_ascii c in
  if (65 <=? n) && (n <=? 90) then ascii_of_nat (n + 32) else c.

Fixpoint toLowerCase (s : string) : string :=
  match s with
  | EmptyString => EmptyString
  | String c s' => String (lower c) (toLowerCase s')
  end.

(** [Array.prototype.join] on an array of strings. *)
Fixpoint join (sep : string) (parts : list string) : string :=
  match parts with
  | [] => ""
  | [p] => p
  | p :: rest => p ++ sep ++ join sep rest
  end.

(** White space removed by [String.prototype.trim] (ASCII part). *)
Definition is_space (c : ascii) : bool :=
  let n := nat_of_ascii c in
  ((9 <=? n) && (n <=? 13)) || (n =? 32).

Fixpoint trimStart (s : string) : string :=
  match s with
  | EmptyString => EmptyString
  | String c s' => if is_space c then trimStart s' else s
  end.

Fixpoint trimEnd (s : string) : string :=
  match s with
  | EmptyString => EmptyString
  | String c s' =>
      match trimEnd s' with
      | EmptyString => if is_space c then EmptyString else String c EmptyString
      | t => String c t
      end
  end.

Definition trim (s : string) : string := trimEnd (trimStart s).

(** [needle] occurs verbatim inside [hay]. *)
Definition occurs_in (needle hay : string) : Prop :=
  exists before after, hay = before ++ needle ++ after.

End JSString.
Import JSString.

(* ================================================================== *)
(** * Errors and documents *)

(** The error taxonomy of the design document.  In [app.js] each of them is
    a thrown exception, that is a rejected promise.  [TypeError] is what using
    a reference that points to no vector store would raise; [main] never
    does.  [UseAfterClose] is what [rl.question] throws once the readline
    interface is closed. *)
Inductive Error : Type :=
| IOError
| ConfigError
| EmbeddingServiceError
| ModelServiceError
| TypeError
| UseAfterClose.

(** A transaction chunk: [Document] of [@langchain/core/documents]. *)
Record Document : Type := mkDocument {
  pageContent : string;
  position : nat
}.

(** An embedding: a numeric vector. *)
Definition Vec : Type := list Z.

(* ================================================================== *)
(** * Chunk splitter *)

Module Splitter.

(** The options object passed to [new RecursiveCharacterTextSplitter]. *)
Record Config : Type := mkConfig {
  chunkSize : nat;
  chunkOverlap : nat
}.

Section Windows.
Context {A : Type}.
Variables (size overlap : nat).

(** Fixed-size segments of [text]: each one starts [size - overlap]
    after the previous one, and the last one reaches the end of the text.
    [fuel] bounds the number of segments. *)
Fixpoint windows (fuel : nat) (text : list A) : list (list A) :=
  match fuel with
  | O => []
  | S fuel' =>
      if length text <=? size then [text]
      else firstn size text :: windows fuel' (skipn (size - overlap) text)
  end.

(** Rejoining: the first segment whole, then every later segment without
    the [overlap] characters it repeats from its predecessor. *)
Definition rejoin (chunks : list (list A)) : list A :=
  match chunks with
  | [] => []
  | first :: later => (first ++ concat (map (skipn overlap) later))%list
  end.
End Windows.

(** Modelled from the spec: [RecursiveCharacterTextSplitter.splitText] of
    package [langchain/text_splitter], which is not part of [app.js].
    Design document 4.2: [split(text, chunkSize, overlap)] divides the text
    into overlapping fixed-size segments, in order of appearance; an
    overlap that is not below the chunk size is a configuration error. *)
Definition splitText (cfg : Config) (text : string) : Error + list string :=
  if chunkSize cfg <=? chunkOverlap cfg then inl ConfigError
  else
    let chars := list_ascii_of_string text in
    match chars with
    | [] => inr []
    | _ =>
        inr (map string_of_list_ascii
               (windows (chunkSize cfg) (chunkOverlap cfg) (length chars) chars))
    end.

(** Modelled from the spec: rejoining with the overlapping spans
    deduplicated (design document, section 8). *)
Definition rejoinText (cfg : Config) (chunks : list string) : string :=
  string_of_list_ascii
    (rejoin (chunkOverlap cfg) (map list_ascii_of_string chunks)).

Fixpoint number (from : nat) (texts : list string) : list Document :=
  match texts with
  | [] => []
  | t :: rest => mkDocument t from :: number (S from) rest
  end.

(** [splitter.createDocuments([content])]: one [Document] per chunk. *)
Definition createDocuments (cfg : Config) (content : string)
  : Error + list Document :=
  match splitText cfg content with
  | inl e => inl e
  | inr texts => inr (number 0 texts)
  end.

End Splitter.

(* ================================================================== *)
(** * Promises, observable events and the JavaScript heap *)

(** One message of the conversation sent to the chat model. *)
Inductive Message : Type :=
| SystemMessage (text : string)
| ToolCallMessage (tool argument observation : string)
| UserMessage (text : string).

(** What [app.js] does that can be seen from outside.  [ConsoleLog] is a call
    of [console.log] made by [app.js]; what the libraries write on the console
    on their own account is not recorded. *)
Inductive Event : Type :=
| ReadFile (path : string)
| EmbedDocuments (texts : list string)
| EmbedQuery (text : string)
| ModelCall (messages : list Message)
| Question (query : string)
| ConsoleLog (line : string)
| RlClose.

(** Outbound calls to the hosted services. *)
Definition is_network (e : Event) : bool :=
  match e with
  | EmbedDocuments _ | EmbedQuery _ | ModelCall _ => true
  | _ => false
  end.

Definition is_model_call (e : Event) : bool :=
  match e with ModelCall _ => true | _ => false end.

Definition is_embed_query (e : Event) : bool :=
  match e with EmbedQuery _ => true | _ => false end.

Definition is_embed_documents (e : Event) : bool :=
  match e with EmbedDocuments _ => true | _ => false end.

Definition is_read_file (e : Event) : bool :=
  match e with ReadFile _ => true | _ => false end.

Definition is_question (e : Event) : bool :=
  match e with Question _ => true | _ => false end.

(** The events of a turn: calls to the chat model and query embeddings. *)
Definition is_turn_event (e : Event) : bool :=
  is_model_call e || is_embed_query e.

Definition count (p : Event -> bool) (evs : list Event) : nat :=
  length (filter p evs).

(** A [MemoryVectorStore] object: its [memoryVectors] array. *)
Definition MemoryVectorStore : Type := list (Document * Vec).

(** A reference to a [MemoryVectorStore] object: its address in the heap. *)
Definition VectorStoreRef : Type := nat.

(** The state of the process: the events so far, oldest first, and the
    vector store objects allocated so far. *)
Record World : Type := mkWorld {
  trace : list Event;
  heap : list MemoryVectorStore
}.

Definition initial_world : World := mkWorld [] [].

(** The state of an awaited promise.  [Pending] is a promise that never
    settles: [rl.question] when the input stream has ended. *)
Inductive Outcome (A : Type) : Type :=
| Resolved (a : A)
| Rejected (e : Error)
| Pending.
Arguments Resolved {A} a.
Arguments Rejected {A} e.
Arguments Pending {A}.

(** An [async] computation. *)
Definition Async (A : Type) : Type := World -> World * Outcome A.

Definition ret {A} (a : A) : Async A := fun w => (w, Resolved a).

Definition throw {A} (e : Error) : Async A := fun w => (w, Rejected e).

(** [await m] followed by [k]: a rejection of [m] rejects the whole
    computation, and nothing after a promise that never settles runs. *)
Definition bind {A B} (m : Async A) (k : A -> Async B) : Async B :=
  fun w =>
    match m w with
    | (w', Resolved a) => k a w'
    | (w', Rejected e) => (w', Rejected e)
    | (w', Pending) => (w', Pending)
    end.

Declare Scope async_scope.
Delimit Scope async_scope with async.
Notation "x <- m ;; k" := (bind m (fun x => k))
  (at level 100, m at next level, right associativity) : async_scope.
Notation "m ;; k" := (bind m (fun _ => k))
  (at level 100, right associativity) : async_scope.
Open Scope async_scope.

Definition emit (e : Event) : Async unit :=
  fun w => (mkWorld (trace w ++ [e]) (heap w), Resolved tt).

(** The number of events so far: the instant at which a service is asked. *)
Definition now : Async nat := fun w => (w, Resolved (length (trace w))).

Definition lift {A} (err : Error) (r : option A) : Async A :=
  match r with
  | Some a => ret a
  | None => throw err
  end.

(** Events added by running [m] from [w]. *)
Definition produced {A} (m : Async A) (w : World) : list Event :=
  skipn (length (trace w)) (trace (fst (m w))).

(** Run from [w], [m] adds the events [evs], leaves the heap as it is and
    settles as [o]. *)
Definition yields {A} (m : Async A) (w : World) (evs : list Event)
    (o : Outcome A) : Prop :=
  m w = (mkWorld (trace w ++ evs) (heap w), o).

(* ================================================================== *)
(** * What lies outside the program *)

(** A reply of the chat model (design document, section 9). *)
Inductive ModelReply : Type :=
| FinalAnswer (text : string)
| ToolRequest (name argument : string).

(** The file system, the environment variable and the hosted services, which
    may answer differently at each instant, or fail: [None]. *)
Record Env : Type := mkEnv {
  files : string -> option string;
  OPENAI_API_KEY : option string;
  embedding_service : nat -> list string -> option (list Vec);
  similarity : Vec -> Vec -> Z;
  chat_service : nat -> list Message -> option ModelReply
}.

(* ================================================================== *)
(** * Embedding index *)

Module EmbeddingIndex.

Section Ranking.
Context {A : Type}.

(** Insertion into a list ordered by non-increasing score; among equal
    scores the inserted entry comes first. *)
Fixpoint insert_desc (x : A * Z) (l : list (A * Z)) : list (A * Z) :=
  match l with
  | [] => [x]
  | y :: l' =>
      if (snd y <=? snd x)%Z then x :: y :: l'
      else y :: insert_desc x l'
  end.

Definition rank (l : list (A * Z)) : list (A * Z) :=
  fold_right insert_desc [] l.

(** [a] is at least as similar to the query as [b]. *)
Definition more_similar (a b : A * Z) : Prop := (snd b <= snd a)%Z.
End Ranking.

(** Modelled from the spec: the search of [MemoryVectorStore] (package
    [langchain/vectorstores/memory]), which is not part of [app.js].
    Design document 4.3: [query(index, text, k)] is the ordered sequence of
    (chunk, score), most similar first, of length at most [k].  Scores are
    integers here. *)
Definition query (sim : Vec -> Vec -> Z) (index : MemoryVectorStore)
    (q : Vec) (k : nat) : list (Document * Z) :=
  firstn k (rank (map (fun entry => (fst entry, sim q (snd entry))) index)).

Definition alloc (store : MemoryVectorStore) : Async VectorStoreRef :=
  fun w => (mkWorld (trace w) (heap w ++ [store]), Resolved (length (heap w))).

Definition deref (r : VectorStoreRef) : Async MemoryVectorStore :=
  fun w =>
    match nth_error (heap w) r with
    | Some store => (w, Resolved store)
    | None => (w, Rejected TypeError)
    end.

(** The [OpenAIEmbeddings] client: it holds the credential. *)
Record OpenAIEmbeddings : Type := mkEmbeddings { apiKey : string }.

(** Modelled from the spec: the constructor of [OpenAIEmbeddings] (package
    [@langchain/openai]).  Design document, section 7: a missing credential
    is a [ConfigError]. *)
Definition new_OpenAIEmbeddings (env : Env) : Async OpenAIEmbeddings :=
  match OPENAI_API_KEY env with
  | Some key => ret (mkEmbeddings key)
  | None => throw ConfigError
  end.

(** Modelled from the spec: [MemoryVectorStore.fromDocuments], design
    document 4.3 [build(chunks)]: one request to the embedding service with
    the array of chunk texts, then a new store pairing each chunk with its
    vector.  A failed request is an [EmbeddingServiceError]. *)
Definition fromDocuments (env : Env) (embeddings : OpenAIEmbeddings)
    (documents : list Document) : Async VectorStoreRef :=
  t <- now;;
  emit (EmbedDocuments (map pageContent documents));;
  vectors <- lift EmbeddingServiceError
               (embedding_service env t (map pageContent documents));;
  alloc (combine documents vectors).

(** Modelled from the spec: [vectorStore.similaritySearch(text, k)]: one
    request that embeds the query text, then [query] on the stored vectors;
    the chunks are returned without their scores. *)
Definition similaritySearch (env : Env) (vectorStore : VectorStoreRef)
    (text : string) (k : nat) : Async (list Document) :=
  t <- now;;
  emit (EmbedQuery text);;
  vectors <- lift EmbeddingServiceError (embedding_service env t [text]);;
  match vectors with
  | [] => throw EmbeddingServiceError
  | q :: _ =>
      index <- deref vectorStore;;
      ret (map fst (query (similarity env) index q k))
  end.

End EmbeddingIndex.
Import EmbeddingIndex.

(* ================================================================== *)
(** * [app.js] *)

(** [loadTransactionChunks]: read and split the transactions into chunks. *)
Definition loadTransactionChunks (env : Env) : Async (list Document) :=
  emit (ReadFile "documents/transactions.csv");;
  content <- lift IOError (files env "documents/transactions.csv");;
  let splitter := Splitter.mkConfig 1000 100 in
  match Splitter.createDocuments splitter content with
  | inl e => throw e
  | inr documents => ret documents
  end.

(** [createVectorStore]: create the vector store from transaction chunks. *)
Definition createVectorStore (env : Env) (documents : list Document)
  : Async VectorStoreRef :=
  embeddings <- new_OpenAIEmbeddings env;;
  vectorStore <- fromDocuments env embeddings documents;;
  ret vectorStore.

(** A [DynamicTool] object. *)
Record DynamicTool : Type := mkTool {
  name : string;
  description : string;
  func : string -> Async string
}.

(** [createTransactionRetrieverTool]: the TransactionRetriever tool. *)
Definition createTransactionRetrieverTool (env : Env)
    (vectorStore : VectorStoreRef) : DynamicTool :=
  {| name := "TransactionRetriever";
     description := "Use this tool ONCE to fetch relevant transactions, amounts, categories, and dates from the user’s spending records. Use it to summarize spending by category or date range.";
     func := fun input =>
       results <- similaritySearch env vectorStore input 5;;
       ret (join (LF ++ "---" ++ LF) (map pageContent results)) |}.

(** The chat model object; [temperature] is kept in hundredths. *)
Record ChatOpenAI : Type := mkChatOpenAI {
  modelName : string;
  temperature : nat;
  openAIApiKey : string
}.

(** Modelled from the spec: the constructor of [ChatOpenAI] (package
    [@langchain/openai]).  Design document, section 7: a missing credential
    is a [ConfigError], fatal at startup. *)
Definition new_ChatOpenAI (modelName : string) (temperature : nat)
    (openAIApiKey : option string) : Async ChatOpenAI :=
  match openAIApiKey with
  | Some key => ret (mkChatOpenAI modelName temperature key)
  | None => throw ConfigError
  end.

(** The module-level [model]. *)
Definition model (env : Env) : Async ChatOpenAI :=
  new_ChatOpenAI "gpt-4o" 20 (OPENAI_API_KEY env).

(** A part of a [ChatPromptTemplate]. *)
Inductive PromptPart : Type :=
| SystemPart (text : string)
| MessagesPlaceholder (variable : string)
| UserPart (template : string).

(** The module-level [prompt]. *)
Definition prompt : list PromptPart :=
  [ SystemPart "You are a helpful personal finance coach. Answer their questions about expenses by using the TransactionRetriever tool ONCE to summarize spending. Do not guess.";
    MessagesPlaceholder "agent_scratchpad";
    UserPart "{input}" ].

(* ================================================================== *)
(** * Agent orchestrator *)

Module Orchestrator.

(** The object built by [createOpenAIFunctionsAgent]. *)
Record Agent : Type := mkAgent {
  llm : ChatOpenAI;
  agent_tools : list DynamicTool;
  agent_prompt : list PromptPart
}.

Definition createOpenAIFunctionsAgent (llm : ChatOpenAI)
    (tools : list DynamicTool) (prompt : list PromptPart) : Agent :=
  mkAgent llm tools prompt.

(** The options object passed to [new AgentExecutor].  With [verbose] the
    library logs its steps on the console; these lines are not among the
    events. *)
Record AgentExecutor : Type := mkExecutor {
  agent : Agent;
  tools : list DynamicTool;
  verbose : bool;
  maxIterations : nat
}.

(** The value a turn resolves to: [result.output] is the answer. *)
Record ChainValues : Type := mkResult { output : string }.

(** The prompt template filled in: the system text, the tool calls of this
    turn in place of [agent_scratchpad], the user input. *)
Definition formatMessages (parts : list PromptPart) (input : string)
    (scratchpad : list Message) : list Message :=
  flat_map (fun part =>
              match part with
              | SystemPart text => [SystemMessage text]
              | MessagesPlaceholder _ => scratchpad
              | UserPart _ => [UserMessage input]
              end) parts.

(** Decide: one call to the chat model. *)
Definition plan (env : Env) (ag : Agent) (input : string)
    (scratchpad : list Message) : Async ModelReply :=
  t <- now;;
  emit (ModelCall (formatMessages (agent_prompt ag) input scratchpad));;
  lift ModelServiceError
    (chat_service env t (formatMessages (agent_prompt ag) input scratchpad)).

(** ToolExec: the requested tool is looked up by its lower-cased name and run
    on the argument; a name that no tool bears is answered by a notice. *)
Definition run_tool (tools : list DynamicTool) (tool argument : string)
  : Async string :=
  match find (fun t => String.eqb (toLowerCase (name t)) (toLowerCase tool))
             tools with
  | Some t => func t argument
  | None => ret (tool ++ " is not a valid tool, try another one.")
  end.

(** The executor's call of a tool: what the tool throws is caught there, and
    the observation is then the empty string. *)
Definition observe (call : Async string) : Async string :=
  fun w =>
    match call w with
    | (w', Rejected _) => (w', Resolved "")
    | settled => settled
    end.

(** The answer of a turn stopped by the iteration ceiling. *)
Definition stopped_output : string := "Agent stopped due to max iterations.".

(** Modelled from the spec: the loop of [AgentExecutor] (package
    [langchain/agents]), which is not part of [app.js].  Design document
    4.5: Decide asks the model, and a failure of that call is fatal to the
    turn; a direct answer is Done; a tool request goes through ToolExec,
    whose result is appended to the context, and back to Decide; when the
    iterations allowed are used up the turn is Aborted with a fallback
    answer.  A tool run that fails does not end the turn (section 7: the
    failure is surfaced to the current turn only): the turn goes on with an
    empty observation.  [budget] is the number of iterations still
    allowed. *)
Fixpoint iterate (env : Env) (ex : AgentExecutor) (budget : nat)
    (input : string) (scratchpad : list Message) : Async ChainValues :=
  match budget with
  | O => ret (mkResult stopped_output)
  | S budget' =>
      reply <- plan env (agent ex) input scratchpad;;
      match reply with
      | FinalAnswer text => ret (mkResult text)
      | ToolRequest tool argument =>
          observation <- observe (run_tool (tools ex) tool argument);;
          iterate env ex budget' input
            (scratchpad ++ [ToolCallMessage tool argument observation])
      end
  end.

(** [executor.invoke({ input })]. *)
Definition invoke (env : Env) (ex : AgentExecutor) (input : string)
  : Async ChainValues :=
  iterate env ex (maxIterations ex) input [].

End Orchestrator.
Import Orchestrator.

(* ================================================================== *)
(** * Interactive shell: [main] *)

Definition banner : string :=
  LF ++ "💬 Ask me anything about your transactions. Type "
     ++ dquote ++ "exit" ++ dquote ++ " to quit." ++ LF.

Definition is_exit (userPrompt : string) : bool :=
  String.eqb (toLowerCase userPrompt) "exit".

(** A line of standard input, by when it arrives: while a question is
    pending, and it answers that question; or while none is, and readline,
    having no one to hand it to, drops it. *)
Inductive Arrival : Type :=
| AtPrompt (line : string)
| InFlight (line : string).

(** When the input stream ends: with a question pending, or with none
    pending, that is during startup or while a turn is running. *)
Inductive InputEnd : Type :=
| EndAtPrompt
| EndInFlight.

(** Standard input: the lines in order of arrival, and how the stream ends. *)
Record Stdin : Type := mkStdin {
  arrivals : list Arrival;
  ending : InputEnd
}.

(** The lines that answer a question. *)
Fixpoint delivered (arrivals : list Arrival) : list string :=
  match arrivals with
  | [] => []
  | AtPrompt line :: rest => line :: delivered rest
  | InFlight _ :: rest => delivered rest
  end.

(** Whether the interface is closed when a question is about to be asked,
    [lines] being the lines still to come at a prompt: the stream has ended
    while no question was pending, during startup or during a turn, and no
    line is left. *)
Definition closed (ending : InputEnd) (lines : list string) : bool :=
  match ending with
  | EndAtPrompt => false
  | EndInFlight => match lines with [] => true | _ => false end
  end.

(** The [while (true)] loop of [main], run on the lines still to answer its
    questions.  Each round asks ['You: '] and awaits a line.  A question asked
    on the open interface after the last line stays pending for ever; a
    question asked on the closed interface throws. *)
Fixpoint shell_loop_on (env : Env) (executor : AgentExecutor)
    (ending : InputEnd) (lines : list string) : Async unit :=
  if closed ending lines then throw UseAfterClose
  else
    emit (Question "You: ");;
    match lines with
    | [] => fun w => (w, Pending)
    | userPrompt :: rest =>
        if is_exit userPrompt then emit (ConsoleLog "👋 Goodbye!")
        else
          result <- invoke env executor userPrompt;;
          emit (ConsoleLog (LF ++ "💸 Spending Summary 💸" ++ LF));;
          emit (ConsoleLog (output result ++ LF));;
          shell_loop_on env executor ending rest
    end.

(** The loop at a terminal: every line is typed at the prompt, and the input,
    when it ends, ends with the loop waiting there. *)
Definition shell_loop (env : Env) (executor : AgentExecutor)
    (lines : list string) : Async unit :=
  shell_loop_on env executor EndAtPrompt lines.

(** The executor built by [main] around a vector store. *)
Definition make_executor (env : Env) (model : ChatOpenAI)
    (vectorStore : VectorStoreRef) : AgentExecutor :=
  let transactionRetrieverTool := createTransactionRetrieverTool env vectorStore in
  let agent :=
    createOpenAIFunctionsAgent model [transactionRetrieverTool] prompt in
  {| agent := agent;
     tools := [transactionRetrieverTool];
     verbose := true;
     maxIterations := 10 |}.

(** What [main] does before the loop. *)
Definition startup (env : Env) (model : ChatOpenAI) : Async AgentExecutor :=
  documents <- loadTransactionChunks env;;
  vectorStore <- createVectorStore env documents;;
  ret (make_executor env model vectorStore).

(** [main], given what comes on standard input. *)
Definition main (env : Env) (model : ChatOpenAI) (stdin : Stdin)
  : Async unit :=
  executor <- startup env model;;
  emit (ConsoleLog banner);;
  shell_loop_on env executor (ending stdin) (delivered (arrivals stdin));;
  emit RlClose.

(** The module from top to bottom: the module-level [model], then [main()]. *)
Definition program (env : Env) (stdin : Stdin) : Async unit :=
  m <- model env;;
  main env m stdin.

(** The exit status of the Node process.  A rejection of [main()] is handled
    nowhere, which ends the process with status 1; otherwise the process ends
    with status 0 once nothing is left to run, be it after [rl.close()] or
    with the question left pending at the end of the input. *)
Definition exit_code {A} (o : Outcome A) : nat :=
  match o with
  | Rejected _ => 1
  | Resolved _ | Pending => 0
  end.

Definition session (env : Env) (stdin : Stdin) : World * Outcome unit :=
  program env stdin initial_world.

(** Lines typed at a terminal, one at each prompt. *)
Definition typed (lines : list string) : Stdin :=
  mkStdin (map AtPrompt lines) EndAtPrompt.

(** Lines that arrive together once the first question is pending, as from a
    pipe: the first answers that question, the others arrive before the
    second question is asked, and the stream has ended by then. *)
Definition piped (lines : list string) : Stdin :=
  mkStdin match lines with
          | [] => []
          | first :: others => AtPrompt first :: map InFlight others
          end
          EndInFlight.

(** The process at a terminal. *)
Definition run (env : Env) (stdin : list string) : World * Outcome unit :=
  session env (typed stdin).

(** The process up to the loop: the module-level [model] and the part of
    [main] that precedes the banner. *)
Definition boot (env : Env) : World * Outcome AgentExecutor :=
  (m <- model env;; startup env m) initial_world.

(* ================================================================== *)
(** * The statements of the design document that the code is compared with *)

(** The exit test as the design document words it: the line is trimmed, then
    compared case-insensitively with the exit keyword. *)
Definition spec_is_exit (line : string) : bool :=
  String.eqb (toLowerCase (trim line)) "exit".

(** Design document 4.6: the shell leaves on exactly the lines whose trimmed
    form is the exit keyword. *)
Definition exit_test_trims : Prop :=
  forall line, is_exit line = spec_is_exit line.


(** Design document, section 8, on [env]: when the first line typed is the exit
    keyword, the process ends with status 0 and has made no network call. *)
Definition exit_first_without_network (env : Env) : Prop :=
  forall line rest,
    is_exit line = true ->
    exit_code (snd (run env (line :: rest))) = 0
    /\ count is_network (trace (fst (run env (line :: rest)))) = 0.


(* ================================================================== *)
(** * Sample environments *)

Module Sample.

Definition csv : string :=
  "2024-01-05,Groceries,54.20" ++ LF ++ "2024-01-12,Groceries,30.10".

Definition files (path : string) : option string :=
  if String.eqb path "documents/transactions.csv" then Some csv else None.

(** A toy embedding: the length of the text. *)
Definition embed (t : nat) (texts : list string) : option (list Vec) :=
  Some (map (fun s => [Z.of_nat (String.length s)]) texts).

Definition closeness (a b : Vec) : Z :=
  (- Z.abs (hd 0 a - hd 0 b))%Z.

Definition has_tool_call (m : Message) : bool :=
  match m with ToolCallMessage _ _ _ => true | _ => false end.

(** A model that asks for the tool once and then answers. *)
Definition chat_once (t : nat) (messages : list Message) : option ModelReply :=
  if existsb has_tool_call messages
  then Some (FinalAnswer "You spent 84.30 on groceries.")
  else Some (ToolRequest "TransactionRetriever" "groceries").

(** A model that asks for the tool every time. *)
Definition chat_tool_always (t : nat) (messages : list Message)
  : option ModelReply :=
  Some (ToolRequest "TransactionRetriever" "groceries").

(** A model service that is down. *)
Definition chat_down (t : nat) (messages : list Message) : option ModelReply :=
  None.

Definition question : string := "How much did I spend on groceries?".

Definition env (chat : nat -> list Message -> option ModelReply) : Env :=
  mkEnv files (Some "sk-test") embed closeness chat.

(** No transactions file. *)
Definition env_no_file : Env :=
  mkEnv (fun _ => None) (Some "sk-test") embed closeness chat_once.

(** No credential. *)
Definition env_no_key : Env :=
  mkEnv files None embed closeness chat_once.

Definition llm : ChatOpenAI := mkChatOpenAI "gpt-4o" 20 "sk-test".

(** The state in which the loop of [env chat] starts. *)
Definition ready (chat : nat -> list Message -> option ModelReply) : World :=
  fst ((executor <- startup (env chat) llm;; emit (ConsoleLog banner))
         initial_world).

Definition docs : list Document :=
  [mkDocument "2024-01-05,Groceries,54.20" 0;
   mkDocument "2024-01-12,Groceries,30.10" 1;
   mkDocument "2024-02-01,Rent,900.00" 2].

End Sample.

(* ================================================================== *)
(** * Further predicates and scenarios *)

(** A call of [console.log] made by [app.js] itself. *)
Definition is_console_log (e : Event) : bool :=
  match e with ConsoleLog _ => true | _ => false end.

Definition is_tool_call (m : Message) : bool :=
  match m with ToolCallMessage _ _ _ => true | _ => false end.

(** [e], if it is a call to the chat model, is a call made for the user input
    [input]: the prompt filled in with that input, with nothing but tool
    calls, at most nine of them, in place of the scratchpad. *)
Definition call_for (input : string) (e : Event) : Prop :=
  match e with
  | ModelCall messages =>
      exists calls,
        messages = formatMessages prompt input calls
        /\ Forall (fun m => is_tool_call m = true) calls
        /\ length calls <= 9
  | _ => True
  end.

(** What one turn on [input] does and how it ends, read off the replies of
    the model alone.  The turn begins at the instant [t] with [budget]
    iterations allowed and [scratchpad] as the tool calls made so far.  Each
    iteration sends the model the prompt filled in with [input] and that
    scratchpad; a tool request of the model, and nothing else, adds one tool
    call to it, after at most one search for the argument requested. *)
Inductive turn_trace (env : Env) (input : string)
  : nat -> nat -> list Message -> list Event -> Outcome ChainValues -> Prop :=
| turn_stopped t scratchpad :
    turn_trace env input 0 t scratchpad [] (Resolved (mkResult stopped_output))
| turn_answered budget t scratchpad text :
    chat_service env t (formatMessages prompt input scratchpad)
    = Some (FinalAnswer text) ->
    turn_trace env input (S budget) t scratchpad
      [ModelCall (formatMessages prompt input scratchpad)]
      (Resolved (mkResult text))
| turn_failed budget t scratchpad :
    chat_service env t (formatMessages prompt input scratchpad) = None ->
    turn_trace env input (S budget) t scratchpad
      [ModelCall (formatMessages prompt input scratchpad)]
      (Rejected ModelServiceError)
| turn_observed budget t scratchpad tool argument observation searches later o :
    chat_service env t (formatMessages prompt input scratchpad)
    = Some (ToolRequest tool argument) ->
    searches = [] \/ searches = [EmbedQuery argument] ->
    turn_trace env input budget (t + 1 + length searches)
      (scratchpad ++ [ToolCallMessage tool argument observation]) later o ->
    turn_trace env input (S budget) t scratchpad
      (ModelCall (formatMessages prompt input scratchpad) :: searches ++ later)
      o.

(** What the loop does from the instant [t] on the lines still to reach a
    prompt: every line that is not the exit keyword gets a turn of its own,
    which begins with ten iterations allowed and an empty scratchpad. *)
Inductive loop_trace (env : Env) (ending : InputEnd)
  : nat -> list string -> list Event -> Outcome unit -> Prop :=
| loop_closed t :
    ending = EndInFlight ->
    loop_trace env ending t [] [] (Rejected UseAfterClose)
| loop_waits t :
    ending = EndAtPrompt ->
    loop_trace env ending t [] [Question "You: "] Pending
| loop_leaves t line rest :
    is_exit line = true ->
    loop_trace env ending t (line :: rest)
      [Question "You: "; ConsoleLog "👋 Goodbye!"] (Resolved tt)
| loop_fails t line rest turn e :
    is_exit line = false ->
    turn_trace env line 10 (t + 1) [] turn (Rejected e) ->
    loop_trace env ending t (line :: rest) (Question "You: " :: turn)
      (Rejected e)
| loop_answers t line rest turn result later o :
    is_exit line = false ->
    turn_trace env line 10 (t + 1) [] turn (Resolved result) ->
    loop_trace env ending (t + 1 + length turn + 2) rest later o ->
    loop_trace env ending t (line :: rest)
      (Question "You: "
         :: turn
         ++ [ConsoleLog (LF ++ "💸 Spending Summary 💸" ++ LF);
             ConsoleLog (output result ++ LF)]
         ++ later)
      o.

Module Scenario.

(** A model that answers every question at once. *)
Definition chat_direct (t : nat) (messages : list Message) : option ModelReply :=
  Some (FinalAnswer "Please ask about your spending.").

(** An embedding service that answers the request made at startup and is
    down afterwards. *)
Definition embed_startup_only (t : nat) (texts : list string)
  : option (list Vec) :=
  if t =? 1 then Sample.embed t texts else None.

Definition env_direct : Env := Sample.env chat_direct.

Definition env_search_down : Env :=
  mkEnv Sample.files (Some "sk-test") embed_startup_only Sample.closeness
        Sample.chat_tool_always.

(** The same embedding service, with a model that asks for the tool once. *)
Definition env_search_down_once : Env :=
  mkEnv Sample.files (Some "sk-test") embed_startup_only Sample.closeness
        Sample.chat_once.

(** An embedding service that is down from the start. *)
Definition env_embedding_down : Env :=
  mkEnv Sample.files (Some "sk-test") (fun _ _ => None) Sample.closeness
        Sample.chat_once.

(** A store of six chunks. *)
Definition rows : MemoryVectorStore :=
  [(mkDocument "row1" 0, [10%Z]); (mkDocument "row2" 1, [20%Z]);
   (mkDocument "row3" 2, [3%Z]); (mkDocument "row4" 3, [6%Z]);
   (mkDocument "row5" 4, [40%Z]); (mkDocument "row6" 5, [1%Z])].

Definition world_of_rows : World := mkWorld [] [rows].

(** The state in which the loop starts in [env]. *)
Definition ready (env : Env) : World :=
  fst ((executor <- startup env Sample.llm;; emit (ConsoleLog banner))
         initial_world).

Definition executor (env : Env) : AgentExecutor :=
  make_executor env Sample.llm 0.

End Scenario.

Example sample_run_answers :
  snd (run (Sample.env Sample.chat_once) [Sample.question; "Exit"]) = Resolved tt
  /\ In (ConsoleLog ("You spent 84.30 on groceries." ++ LF))
        (trace (fst (run (Sample.env Sample.chat_once) [Sample.question; "Exit"]))).
Proof. vm_compute. split; [reflexivity | intuition]. Qed.

(* ================================================================== *)
(** * Facts on strings *)

Lemma append_assoc (a b c : string) : ((a ++ b) ++ c)%string = (a ++ b ++ c)%string.
Proof. induction a as [|ch a IH]; simpl; [reflexivity | now rewrite IH]. Qed.

Lemma append_empty_r (a : string) : (a ++ "")%string = a.
Proof. induction a as [|ch a IH]; simpl; [reflexivity | now rewrite IH]. Qed.

Lemma join_occurs (sep p : string) (parts : list string) :
  In p parts -> occurs_in p (join sep parts).
Proof.
  induction parts as [|x rest IH]; intros Hin; [contradiction|].
  destruct Hin as [-> | Hin].
  - destruct rest as [|y rest'].
    + exists "", "". simpl. now rewrite append_empty_r.
    + exists "", (sep ++ join sep (y :: rest'))%string. reflexivity.
  - destruct rest as [|y rest']; [contradiction|].
    destruct (IH Hin) as (before & after & Heq).
    exists (x ++ sep ++ before)%string, after.
    change (join sep (x :: y :: rest'))
      with (x ++ sep ++ join sep (y :: rest'))%string.
    rewrite Heq. now rewrite !append_assoc.
Qed.

(* ================================================================== *)
(** * Chunk splitter: splitting and rejoining *)

Section WindowsFacts.
Context {A : Type}.
Variables (size overlap : nat).
Hypothesis overlap_below_size : overlap < size.

Lemma skipn_overlap_windows (fuel : nat) (text : list A) :
  length text <= fuel -> 0 < length text -> overlap <= length text ->
  concat (map (skipn overlap) (Splitter.windows size overlap fuel text))
  = skipn overlap text.
Proof.
  revert text. induction fuel as [|fuel IH]; intros text Hfuel Hpos Hlen.
  - lia.
  - cbn [Splitter.windows].
    destruct (Nat.leb_spec (length text) size) as [Hshort | Hlong].
    + simpl. apply app_nil_r.
    + cbn [map concat]. rewrite IH.
      * rewrite skipn_skipn.
        replace (overlap + (size - overlap)) with size by lia.
        rewrite <- (firstn_skipn size text) at 3.
        rewrite skipn_app, length_firstn.
        replace (overlap - Nat.min size (length text)) with 0 by lia.
        reflexivity.
      * rewrite length_skipn. lia.
      * rewrite length_skipn. lia.
      * rewrite length_skipn. lia.
Qed.

Lemma rejoin_windows (fuel : nat) (text : list A) :
  length text <= fuel -> 0 < length text ->
  Splitter.rejoin overlap (Splitter.windows size overlap fuel text) = text.
Proof.
  intros Hfuel Hpos. destruct fuel as [|fuel]; [lia|].
  cbn [Splitter.windows].
  destruct (Nat.leb_spec (length text) size) as [Hshort | Hlong].
  - simpl. apply app_nil_r.
  - cbn [Splitter.rejoin].
    rewrite skipn_overlap_windows by (rewrite length_skipn; lia).
    rewrite skipn_skipn.
    replace (overlap + (size - overlap)) with size by lia.
    apply firstn_skipn.
Qed.

(** No segment is longer than the chunk size. *)
Lemma windows_bounded (fuel : nat) (text : list A) :
  Forall (fun chunk => length chunk <= size)
         (Splitter.windows size overlap fuel text).
Proof.
  revert text. induction fuel as [|fuel IH]; intros text; cbn [Splitter.windows].
  - constructor.
  - destruct (Nat.leb_spec (length text) size) as [Hshort | Hlong].
    + repeat constructor. exact Hshort.
    + constructor; [apply firstn_le_length | apply IH].
Qed.
End WindowsFacts.

Lemma pageContent_number (from : nat) (texts : list string) :
  map pageContent (Splitter.number from texts) = texts.
Proof.
  revert from. induction texts as [|t rest IH]; intros from; simpl;
    [reflexivity | now rewrite IH].
Qed.

Lemma splitText_rejoinText (cfg : Splitter.Config) (text : string) :
  Splitter.chunkOverlap cfg < Splitter.chunkSize cfg ->
  exists chunks,
    Splitter.splitText cfg text = inr chunks
    /\ Splitter.rejoinText cfg chunks = text.
Proof.
  intros Hcfg. unfold Splitter.splitText, Splitter.rejoinText.
  destruct (Nat.leb_spec (Splitter.chunkSize cfg) (Splitter.chunkOverlap cfg));
    [lia|].
  destruct (list_ascii_of_string text) as [|c chars] eqn:Hchars.
  - exists []. split; [reflexivity|]. simpl.
    rewrite <- (string_of_list_ascii_of_string text), Hchars. reflexivity.
  - eexists. split; [reflexivity|].
    rewrite map_map.
    rewrite (map_ext _ (fun x => x)) by apply list_ascii_of_string_of_list_ascii.
    rewrite map_id, rejoin_windows by (simpl; lia).
    rewrite <- Hchars. apply string_of_list_ascii_of_string.
Qed.

(** With [chunkSize: 1000] and [chunkOverlap: 100] the splitter never
    refuses its configuration. *)
Lemma createDocuments_reference (content : string) :
  exists documents,
    Splitter.createDocuments (Splitter.mkConfig 1000 100) content = inr documents.
Proof.
  unfold Splitter.createDocuments.
  destruct (splitText_rejoinText (Splitter.mkConfig 1000 100) content)
    as (chunks & Hsplit & _).
  - cbn [Splitter.chunkOverlap Splitter.chunkSize]. lia.
  - rewrite Hsplit. eexists. reflexivity.
Qed.

(** C7: for every text and every chunk size with a smaller overlap, splitting
    the text into chunks and rejoining the chunks, each later chunk without the
    overlap it repeats, gives the text back exactly; this holds for the chunk
    texts and for the documents made from them. *)
Theorem split_rejoin_roundtrip (cfg : Splitter.Config) (text : string) :
  Splitter.chunkOverlap cfg < Splitter.chunkSize cfg ->
  exists documents,
    Splitter.createDocuments cfg text = inr documents
    /\ Splitter.splitText cfg text = inr (map pageContent documents)
    /\ Splitter.rejoinText cfg (map pageContent documents) = text.
Proof.
  intros Hcfg.
  destruct (splitText_rejoinText cfg text Hcfg) as (chunks & Hsplit & Hjoin).
  exists (Splitter.number 0 chunks).
  unfold Splitter.createDocuments.
  rewrite Hsplit, pageContent_number. auto.
Qed.

Lemma split_rejoin_roundtrip_witness :
  exists documents,
    Splitter.createDocuments (Splitter.mkConfig 10 3) Sample.csv = inr documents
    /\ Splitter.splitText (Splitter.mkConfig 10 3) Sample.csv
       = inr (map pageContent documents)
    /\ Splitter.rejoinText (Splitter.mkConfig 10 3) (map pageContent documents)
       = Sample.csv.
Proof.
  apply (split_rejoin_roundtrip (Splitter.mkConfig 10 3) Sample.csv).
  simpl. lia.
Defined.

Example split_sample :
  Splitter.splitText (Splitter.mkConfig 10 3) "2024-01-05,Groceries,54.20"
  = inr ["2024-01-05"; "-05,Grocer"; "ceries,54."; "54.20"].
Proof. vm_compute. reflexivity. Qed.

(* ================================================================== *)
(** * Embedding index: ranking *)

Section RankingFacts.
Context {A : Type}.
Implicit Types (x y : A * Z) (l : list (A * Z)).

Lemma insert_desc_perm x l : Permutation (insert_desc x l) (x :: l).
Proof.
  induction l as [|y l IH]; cbn [insert_desc]; [reflexivity|].
  destruct (snd y <=? snd x)%Z; [reflexivity|].
  rewrite IH. apply perm_swap.
Qed.

Lemma insert_desc_sorted x l :
  StronglySorted more_similar l -> StronglySorted more_similar (insert_desc x l).
Proof.
  induction 1 as [|y l Hsorted IH Hy]; cbn [insert_desc].
  - repeat constructor.
  - destruct (Z.leb_spec (snd y) (snd x)) as [Hle | Hgt].
    + constructor; [now constructor|].
      constructor; [exact Hle|].
      eapply Forall_impl; [|exact Hy].
      unfold more_similar. intros z Hz. lia.
    + constructor; [exact IH|].
      eapply Permutation_Forall; [symmetry; apply insert_desc_perm|].
      constructor; [unfold more_similar; lia | exact Hy].
Qed.

Lemma rank_perm l : Permutation (rank l) l.
Proof.
  induction l as [|x l IH]; cbn [rank fold_right]; [reflexivity|].
  fold (rank l). rewrite insert_desc_perm. now constructor.
Qed.

Lemma rank_sorted l : StronglySorted more_similar (rank l).
Proof.
  induction l as [|x l IH]; cbn [rank fold_right]; [constructor|].
  now apply insert_desc_sorted.
Qed.

Lemma sorted_app_inv (R : A * Z -> A * Z -> Prop) l1 l2 :
  StronglySorted R (l1 ++ l2) ->
  StronglySorted R l1 /\ forall x y, In x l1 -> In y l2 -> R x y.
Proof.
  induction l1 as [|a l1 IH]; cbn [app]; intros Hs.
  - split; [constructor | intros x y []].
  - apply StronglySorted_inv in Hs. destruct Hs as [Hs Ha].
    destruct (IH Hs) as [Hs1 Hcross].
    rewrite Forall_app in Ha. destruct Ha as [Ha1 Ha2].
    split; [now constructor|].
    intros x y [<- | Hx] Hy.
    + rewrite Forall_forall in Ha2. now apply Ha2.
    + now apply Hcross.
Qed.
End RankingFacts.

Lemma query_length_le (sim : Vec -> Vec -> Z) (index : MemoryVectorStore)
    (q : Vec) (k : nat) :
  length (query sim index q k) <= k.
Proof. apply firstn_le_length. Qed.

(** C5: for every index, query vector and [k], the query returns at most [k]
    results (exactly [k] when the index holds that many), every earlier result
    scores at least as high as every later one, each result is a chunk of the
    index with its similarity to the query, and the entries left out score no
    higher than any result. *)
Theorem query_at_most_k_ordered (sim : Vec -> Vec -> Z)
    (index : MemoryVectorStore) (q : Vec) (k : nat) :
  length (query sim index q k) <= k
  /\ length (query sim index q k) = Nat.min k (length index)
  /\ StronglySorted more_similar (query sim index q k)
  /\ (forall d s, In (d, s) (query sim index q k) ->
        exists v, In (d, v) index /\ s = sim q v)
  /\ exists left_out,
       Permutation (query sim index q k ++ left_out)
                   (map (fun entry => (fst entry, sim q (snd entry))) index)
       /\ forall r o, In r (query sim index q k) -> In o left_out ->
                      (snd o <= snd r)%Z.
Proof.
  unfold query.
  set (scored := map (fun entry => (fst entry, sim q (snd entry))) index).
  assert (Hsorted : StronglySorted more_similar
                      (firstn k (rank scored) ++ skipn k (rank scored)))
    by (rewrite firstn_skipn; apply rank_sorted).
  apply sorted_app_inv in Hsorted. destruct Hsorted as [Hfirst Hcross].
  split; [apply firstn_le_length|].
  split.
  { rewrite length_firstn, (Permutation_length (rank_perm scored)).
    unfold scored. now rewrite length_map. }
  split; [exact Hfirst|].
  split.
  - intros d s Hin.
    assert (Hscored : In (d, s) scored).
    { eapply Permutation_in; [apply rank_perm|].
      rewrite <- (firstn_skipn k (rank scored)). apply in_or_app. now left. }
    unfold scored in Hscored. apply in_map_iff in Hscored.
    destruct Hscored as ([d' v] & Heq & Hin'). cbn in Heq.
    inversion Heq; subst. now exists v.
  - exists (skipn k (rank scored)). split.
    + rewrite firstn_skipn. apply rank_perm.
    + intros r o Hr Ho. exact (Hcross r o Hr Ho).
Qed.

Lemma query_at_most_k_ordered_witness :
  length (query Sample.closeness
            (combine Sample.docs [[26%Z]; [30%Z]; [22%Z]]) [27%Z] 2) <= 2
  /\ exists v,
       In (mkDocument "2024-01-05,Groceries,54.20" 0, v)
          (combine Sample.docs [[26%Z]; [30%Z]; [22%Z]])
       /\ (-1)%Z = Sample.closeness [27%Z] v.
Proof.
  pose proof (query_at_most_k_ordered Sample.closeness
                (combine Sample.docs [[26%Z]; [30%Z]; [22%Z]]) [27%Z] 2)
    as (Hlen & _ & _ & Hfrom & _).
  split; [exact Hlen|].
  apply (Hfrom (mkDocument "2024-01-05,Groceries,54.20" 0) (-1)%Z).
  vm_compute. left. reflexivity.
Defined.

Example query_sample :
  map fst (query Sample.closeness
             (combine Sample.docs [[26%Z]; [30%Z]; [22%Z]]) [27%Z] 2)
  = [mkDocument "2024-01-05,Groceries,54.20" 0;
     mkDocument "2024-01-12,Groceries,30.10" 1].
Proof. vm_compute. reflexivity. Qed.

(* ================================================================== *)
(** * Facts on asynchronous computations *)

Lemma world_eta (w : World) : mkWorld (trace w) (heap w) = w.
Proof. destruct w; reflexivity. Qed.

Section YieldsFacts.
Context {A B : Type}.

Lemma yields_ret (a : A) w : yields (ret a) w [] (Resolved a).
Proof. unfold yields, ret. now rewrite app_nil_r, world_eta. Qed.

Lemma yields_throw (e : Error) w : yields (@throw A e) w [] (Rejected e).
Proof. unfold yields, throw. now rewrite app_nil_r, world_eta. Qed.

Lemma yields_bind (m : Async A) (k : A -> Async B) w evs1 a evs2 o :
  yields m w evs1 (Resolved a) ->
  yields (k a) (mkWorld (trace w ++ evs1) (heap w)) evs2 o ->
  yields (bind m k) w (evs1 ++ evs2) o.
Proof.
  unfold yields, bind. intros -> Hk. rewrite Hk. cbn.
  now rewrite app_assoc.
Qed.

Lemma yields_bind_rejected (m : Async A) (k : A -> Async B) w evs e :
  yields m w evs (Rejected e) -> yields (bind m k) w evs (Rejected e).
Proof. unfold yields, bind. now intros ->. Qed.

Lemma yields_bind_pending (m : Async A) (k : A -> Async B) w evs :
  yields m w evs Pending -> yields (bind m k) w evs Pending.
Proof. unfold yields, bind. now intros ->. Qed.

Lemma yields_produced (m : Async A) w evs o :
  yields m w evs o ->
  produced m w = evs /\ heap (fst (m w)) = heap w /\ snd (m w) = o.
Proof.
  unfold yields, produced. intros ->. cbn.
  repeat split. rewrite skipn_app, skipn_all, Nat.sub_diag. reflexivity.
Qed.
End YieldsFacts.

Lemma yields_emit (e : Event) w : yields (emit e) w [e] (Resolved tt).
Proof. reflexivity. Qed.

Lemma count_app (p : Event -> bool) (l1 l2 : list Event) :
  count p (l1 ++ l2) = count p l1 + count p l2.
Proof. unfold count. now rewrite filter_app, length_app. Qed.

Lemma count_none (p : Event -> bool) (l : list Event) :
  Forall (fun e => p e = false) l -> count p l = 0.
Proof.
  unfold count. induction 1 as [|e l He _ IH]; cbn; [reflexivity|].
  now rewrite He.
Qed.

(* ================================================================== *)
(** * Retrieval tool *)

(** What a search resolves to, from the reply of the embedding service and
    the object the reference points to. *)
Lemma similaritySearch_yields env vectorStore text k w :
  yields (similaritySearch env vectorStore text k) w [EmbedQuery text]
    match embedding_service env (length (trace w)) [text] with
    | Some (q :: _) =>
        match nth_error (heap w) vectorStore with
        | Some index => Resolved (map fst (query (similarity env) index q k))
        | None => Rejected TypeError
        end
    | _ => Rejected EmbeddingServiceError
    end.
Proof.
  unfold yields, similaritySearch, bind, now, emit, lift. cbn.
  destruct (embedding_service env (length (trace w)) [text]) as [[|q others]|];
    unfold bind, deref, ret, throw; cbn; try reflexivity.
  destruct (nth_error (heap w) vectorStore); reflexivity.
Qed.

Lemma tool_yields env vectorStore input w :
  yields (func (createTransactionRetrieverTool env vectorStore) input) w
    [EmbedQuery input]
    match embedding_service env (length (trace w)) [input] with
    | Some (q :: _) =>
        match nth_error (heap w) vectorStore with
        | Some index =>
            Resolved (join (LF ++ "---" ++ LF)
                        (map pageContent
                           (map fst (query (similarity env) index q 5))))
        | None => Rejected TypeError
        end
    | _ => Rejected EmbeddingServiceError
    end.
Proof.
  cbn [func createTransactionRetrieverTool].
  pose proof (similaritySearch_yields env vectorStore input 5 w) as Hs.
  destruct (embedding_service env (length (trace w)) [input]) as [[|q others]|].
  - now apply yields_bind_rejected.
  - destruct (nth_error (heap w) vectorStore) as [index|].
    + rewrite <- (app_nil_r [EmbedQuery input]).
      eapply yields_bind; [exact Hs | apply yields_ret].
    + now apply yields_bind_rejected.
  - now apply yields_bind_rejected.
Qed.

Lemma length_append (a b : string) :
  String.length (a ++ b) = String.length a + String.length b.
Proof. induction a as [|c a IH]; cbn; [reflexivity | now rewrite IH]. Qed.

Lemma join_cons (sep x y : string) (l : list string) :
  join sep (x :: y :: l) = (x ++ sep ++ join sep (y :: l))%string.
Proof. reflexivity. Qed.

(** [join] is the standard concatenation with a separator. *)
Lemma join_concat (sep : string) (l : list string) :
  join sep l = String.concat sep l.
Proof.
  induction l as [|x l IH]; reflexivity.
Qed.

Lemma join_length (sep : string) (l : list string) :
  String.length (join sep l)
  = list_sum (map String.length l) + String.length sep * (length l - 1).
Proof.
  induction l as [|x l IH]; [cbn; lia|].
  destruct l as [|y l]; [cbn; lia|].
  rewrite join_cons, !length_append, IH.
  change (list_sum (map String.length (x :: y :: l)))
    with (String.length x + list_sum (map String.length (y :: l))).
  cbn [length].
  replace (S (length l) - 1) with (length l) by lia.
  replace (S (S (length l)) - 1) with (S (length l)) by lia.
  rewrite (Nat.mul_succ_r (String.length sep) (length l)). lia.
Qed.

Lemma join_head (sep x : string) (l : list string) :
  exists tail, join sep (x :: l) = (x ++ tail)%string.
Proof.
  destruct l as [|y l].
  - exists "". cbn. now rewrite append_empty_r.
  - eexists. apply join_cons.
Qed.

(** Two texts that follow each other are a delimiter apart in the result. *)
Lemma join_adjacent (sep a b : string) (before after : list string) :
  occurs_in (a ++ sep ++ b) (join sep (before ++ a :: b :: after)).
Proof.
  induction before as [|x before IH]; cbn [app].
  - rewrite join_cons. destruct (join_head sep b after) as [tail ->].
    exists "", tail. cbn [append]. now rewrite !append_assoc.
  - destruct IH as (pre & post & Heq).
    assert (Hcons : exists y l, (before ++ a :: b :: after)%list = y :: l)
      by (destruct before; cbn; eauto).
    destruct Hcons as (y & l & Hl). rewrite Hl in *.
    rewrite join_cons, Heq.
    exists (x ++ sep ++ pre)%string, post. now rewrite !append_assoc.
Qed.

Lemma query_length (sim : Vec -> Vec -> Z) (index : MemoryVectorStore)
    (q : Vec) (k : nat) :
  length (query sim index q k) = Nat.min k (length index).
Proof.
  unfold query.
  now rewrite length_firstn, (Permutation_length (rank_perm _)), length_map.
Qed.

Lemma query_sorted (sim : Vec -> Vec -> Z) (index : MemoryVectorStore)
    (q : Vec) (k : nat) :
  StronglySorted more_similar (query sim index q k).
Proof.
  unfold query.
  set (scored := map (fun entry => (fst entry, sim q (snd entry))) index).
  assert (Hsorted : StronglySorted more_similar
                      (firstn k (rank scored) ++ skipn k (rank scored)))
    by (rewrite firstn_skipn; apply rank_sorted).
  apply sorted_app_inv in Hsorted. exact (proj1 Hsorted).
Qed.

(** C4: for every query string, the tool issues exactly one search request,
    for that string, and changes nothing else.  When the request is answered,
    the search is the query with k = 5: it finds five chunks, or all of them
    when the store holds fewer, most similar first.  The tool resolves to
    their texts in that order with the five characters line feed, three
    hyphens, line feed between one text and the next, and nothing before the
    first or after the last: the result is the standard concatenation with
    that separator, its length is the sum of their lengths plus five per gap,
    each text occurs verbatim in it, and two texts that follow each other
    occur in it with the delimiter between them. *)
Theorem retriever_tool_contract env vectorStore input w :
  produced (func (createTransactionRetrieverTool env vectorStore) input) w
  = [EmbedQuery input]
  /\ heap (fst (func (createTransactionRetrieverTool env vectorStore) input w))
     = heap w
  /\ forall index q others,
       nth_error (heap w) vectorStore = Some index ->
       embedding_service env (length (trace w)) [input] = Some (q :: others) ->
       let found := query (similarity env) index q 5 in
       let texts := map pageContent (map fst found) in
       let delimiter :=
         String "010" (String "-" (String "-" (String "-"
           (String "010" EmptyString)))) in
       exists text,
         snd (func (createTransactionRetrieverTool env vectorStore) input w)
         = Resolved text
         /\ length found = Nat.min 5 (length index)
         /\ StronglySorted more_similar found
         /\ text = String.concat delimiter texts
         /\ String.length text
            = list_sum (map String.length texts) + 5 * (length texts - 1)
         /\ (texts = [] -> text = "")
         /\ (forall first others, texts = first :: others ->
               exists tail, text = (first ++ tail)%string)
         /\ (forall d, In d (map fst found) -> occurs_in (pageContent d) text)
         /\ (forall before a b after,
               texts = (before ++ a :: b :: after)%list ->
               occurs_in (a ++ delimiter ++ b) text).
Proof.
  destruct (yields_produced _ _ _ _ (tool_yields env vectorStore input w))
    as (Hevs & Hheap & Hout).
  split; [exact Hevs|]. split; [exact Hheap|].
  intros index q others Hindex Hembed found texts delimiter.
  rewrite Hout, Hembed, Hindex.
  change (LF ++ "---" ++ LF)%string with delimiter.
  fold found. fold texts.
  exists (join delimiter texts).
  split; [reflexivity|]. split; [apply query_length|].
  split; [apply query_sorted|]. split; [apply join_concat|].
  split; [apply join_length|]. split; [now intros ->|].
  split; [intros first rest ->; apply join_head|].
  split.
  - intros d Hd. apply join_occurs. now apply in_map.
  - intros before a b after ->. apply join_adjacent.
Qed.

Lemma retriever_tool_contract_witness :
  snd (func (createTransactionRetrieverTool (Sample.env Sample.chat_once) 0)
         "rent" Scenario.world_of_rows)
  = Resolved ("row3" ++ LF ++ "---" ++ LF ++ "row4" ++ LF ++ "---" ++ LF
              ++ "row6" ++ LF ++ "---" ++ LF ++ "row1" ++ LF ++ "---" ++ LF
              ++ "row2")
  /\ occurs_in ("row4" ++ (LF ++ "---" ++ LF) ++ "row6")
       ("row3" ++ LF ++ "---" ++ LF ++ "row4" ++ LF ++ "---" ++ LF
        ++ "row6" ++ LF ++ "---" ++ LF ++ "row1" ++ LF ++ "---" ++ LF
        ++ "row2").
Proof.
  destruct (proj2 (proj2 (retriever_tool_contract
                            (Sample.env Sample.chat_once) 0 "rent"
                            Scenario.world_of_rows))
              Scenario.rows [4%Z] [] eq_refl eq_refl)
    as (text & Hout & _ & _ & Htext & _ & _ & _ & _ & Hgap).
  assert (Heq : text
                = ("row3" ++ LF ++ "---" ++ LF ++ "row4" ++ LF ++ "---" ++ LF
                   ++ "row6" ++ LF ++ "---" ++ LF ++ "row1" ++ LF ++ "---" ++ LF
                   ++ "row2")%string)
    by (rewrite Htext; vm_compute; reflexivity).
  rewrite <- Heq. split; [exact Hout|].
  apply (Hgap ["row3"] "row4" "row6" ["row1"; "row2"]).
  vm_compute. reflexivity.
Defined.

(* ================================================================== *)
(** * Agent orchestrator: one turn *)

Lemma plan_yields env ag input scratchpad w :
  yields (plan env ag input scratchpad) w
    [ModelCall (formatMessages (agent_prompt ag) input scratchpad)]
    match chat_service env (length (trace w))
            (formatMessages (agent_prompt ag) input scratchpad) with
    | Some reply => Resolved reply
    | None => Rejected ModelServiceError
    end.
Proof.
  unfold yields, plan, bind, now, emit, lift. cbn.
  destruct (chat_service env (length (trace w)) _); reflexivity.
Qed.

(** The executor's call of a tool always resolves: to what the tool returned,
    or to the empty string when the tool threw. *)
Lemma run_tool_yields env m vectorStore tool argument w :
  exists evs observation,
    yields (observe (run_tool (tools (make_executor env m vectorStore))
                       tool argument))
      w evs (Resolved observation)
    /\ (evs = [] \/ evs = [EmbedQuery argument]).
Proof.
  unfold observe, run_tool, yields.
  cbn [tools make_executor find name createTransactionRetrieverTool].
  destruct (String.eqb _ _).
  - pose proof (tool_yields env vectorStore argument w) as Htool.
    unfold yields in Htool. rewrite Htool.
    destruct (embedding_service env (length (trace w)) [argument])
      as [[|q others]|];
      try destruct (nth_error (heap w) vectorStore);
      eexists _, _; (split; [reflexivity | now right]).
  - unfold ret. exists [], (tool ++ " is not a valid tool, try another one.")%string.
    rewrite app_nil_r, world_eta. split; [reflexivity | now left].
Qed.

Lemma iterate_yields env m vectorStore budget input scratchpad w :
  exists evs o,
    yields (iterate env (make_executor env m vectorStore) budget input scratchpad)
      w evs o
    /\ count is_model_call evs <= budget
    /\ Forall (fun e => is_turn_event e = true) evs
    /\ o <> Pending
    /\ (budget <> 0 ->
        exists later,
          evs = ModelCall (formatMessages prompt input scratchpad) :: later).
Proof.
  revert scratchpad w. induction budget as [|budget IH]; intros scratchpad w.
  - exists [], (Resolved (mkResult stopped_output)).
    split; [apply yields_ret|]. repeat split; try constructor; try discriminate.
    intros Hne. now contradiction Hne.
  - cbn [iterate].
    pose proof (plan_yields env (agent (make_executor env m vectorStore))
                  input scratchpad w) as Hplan.
    cbn [agent make_executor createOpenAIFunctionsAgent agent_prompt] in Hplan.
    set (messages := formatMessages prompt input scratchpad) in *.
    set (w1 := mkWorld (trace w ++ [ModelCall messages]) (heap w)).
    destruct (chat_service env (length (trace w)) messages)
      as [[text | tool argument]|].
    + exists [ModelCall messages], (Resolved (mkResult text)).
      split.
      { rewrite <- (app_nil_r [ModelCall messages]).
        eapply yields_bind; [exact Hplan | apply yields_ret]. }
      split; [cbn; lia|]. split; [repeat constructor|].
      split; [discriminate | intros _; now eexists].
    + destruct (run_tool_yields env m vectorStore tool argument w1)
        as (evs2 & observation & Htool & Hevs2).
      destruct (IH (scratchpad ++ [ToolCallMessage tool argument observation])%list
                  (mkWorld (trace w1 ++ evs2) (heap w1)))
        as (evs3 & o3 & Hrest & Hcount3 & Hturn3 & Hsettled3 & _).
      exists ([ModelCall messages] ++ evs2 ++ evs3)%list, o3.
      split.
      { eapply yields_bind; [exact Hplan|].
        eapply yields_bind; [exact Htool | exact Hrest]. }
      split.
      { rewrite !count_app. destruct Hevs2 as [-> | ->]; cbn; lia. }
      split.
      { rewrite !Forall_app. split; [repeat constructor|]. split; [|exact Hturn3].
        destruct Hevs2 as [-> | ->]; repeat constructor. }
      split; [exact Hsettled3 | intros _; now eexists].
    + exists [ModelCall messages], (Rejected ModelServiceError).
      split; [apply yields_bind_rejected; exact Hplan|].
      split; [cbn; lia|]. split; [repeat constructor|].
      split; [discriminate | intros _; now eexists].
Qed.

Section ToolAlways.
Variables (env : Env) (m : ChatOpenAI) (vectorStore : VectorStoreRef).
Hypothesis model_asks_tool :
  forall t messages, exists tool argument,
    chat_service env t messages = Some (ToolRequest tool argument).

Lemma iterate_tool_always budget input scratchpad w :
  exists evs,
    yields (iterate env (make_executor env m vectorStore) budget input scratchpad)
      w evs (Resolved (mkResult stopped_output))
    /\ count is_model_call evs = budget.
Proof.
  revert scratchpad w.
  induction budget as [|budget IH]; intros scratchpad w.
  - exists []. split; [apply yields_ret | reflexivity].
  - cbn [iterate].
    pose proof (plan_yields env (agent (make_executor env m vectorStore))
                  input scratchpad w) as Hplan.
    cbn [agent make_executor createOpenAIFunctionsAgent agent_prompt] in Hplan.
    set (messages := formatMessages prompt input scratchpad) in *.
    set (w1 := mkWorld (trace w ++ [ModelCall messages]) (heap w)).
    destruct (model_asks_tool (length (trace w)) messages)
      as (tool & argument & Hreply).
    rewrite Hreply in Hplan.
    destruct (run_tool_yields env m vectorStore tool argument w1)
      as (evs2 & observation & Htool & Hevs2).
    destruct (IH (scratchpad ++ [ToolCallMessage tool argument observation])%list
                (mkWorld (trace w1 ++ evs2) (heap w1)))
      as (evs3 & Hrest & Hcount3).
    exists ([ModelCall messages] ++ evs2 ++ evs3)%list. split.
    + eapply yields_bind; [exact Hplan|].
      eapply yields_bind; [exact Htool | exact Hrest].
    + rewrite !count_app, Hcount3. destruct Hevs2 as [-> | ->]; reflexivity.
Qed.
End ToolAlways.

(** C3: a turn of the executor built by [main] always settles and never makes
    more than 10 iterations (calls to the model); and when the model asks for
    a tool on every iteration, whatever the tool runs do, the turn ends after
    exactly 10 iterations with the fallback answer. *)
Theorem orchestrator_iteration_ceiling env m vectorStore input w :
  (exists evs o,
     yields (invoke env (make_executor env m vectorStore) input) w evs o
     /\ count is_model_call evs <= 10
     /\ o <> Pending)
  /\ ((forall t messages, exists tool argument,
         chat_service env t messages = Some (ToolRequest tool argument)) ->
      exists evs,
        yields (invoke env (make_executor env m vectorStore) input) w evs
          (Resolved (mkResult stopped_output))
        /\ count is_model_call evs = 10).
Proof.
  unfold invoke. cbn [maxIterations make_executor]. split.
  - destruct (iterate_yields env m vectorStore 10 input [] w)
      as (evs & o & Hrun & Hcount & _ & Hsettled & _).
    now exists evs, o.
  - intros Hchat.
    exact (iterate_tool_always env m vectorStore Hchat 10 input [] w).
Qed.

Lemma orchestrator_iteration_ceiling_witness :
  (exists evs,
     yields (invoke (Sample.env Sample.chat_tool_always)
               (make_executor (Sample.env Sample.chat_tool_always) Sample.llm 0)
               Sample.question)
       (Sample.ready Sample.chat_tool_always) evs
       (Resolved (mkResult stopped_output))
     /\ count is_model_call evs = 10)
  /\ (exists evs,
        yields (invoke Scenario.env_search_down
                  (make_executor Scenario.env_search_down Sample.llm 0)
                  Sample.question)
          (Scenario.ready Scenario.env_search_down) evs
          (Resolved (mkResult stopped_output))
        /\ count is_model_call evs = 10).
Proof.
  split.
  - apply (proj2 (orchestrator_iteration_ceiling
                    (Sample.env Sample.chat_tool_always) Sample.llm 0
                    Sample.question (Sample.ready Sample.chat_tool_always))).
    intros t messages. exists "TransactionRetriever", "groceries". reflexivity.
  - apply (proj2 (orchestrator_iteration_ceiling
                    Scenario.env_search_down Sample.llm 0
                    Sample.question (Scenario.ready Scenario.env_search_down))).
    intros t messages. exists "TransactionRetriever", "groceries". reflexivity.
Defined.

Example tool_always_stops :
  snd (run (Sample.env Sample.chat_tool_always) [Sample.question])
  = Pending
  /\ count is_model_call
       (trace (fst (run (Sample.env Sample.chat_tool_always) [Sample.question])))
     = 10
  /\ In (ConsoleLog (stopped_output ++ LF))
        (trace (fst (run (Sample.env Sample.chat_tool_always) [Sample.question]))).
Proof. vm_compute. repeat split. intuition. Qed.

(* ================================================================== *)
(** * Startup *)

Lemma boot_cases env :
  (exists key documents vectors,
      OPENAI_API_KEY env = Some key
      /\ files env "documents/transactions.csv" <> None
      /\ boot env
         = (mkWorld [ReadFile "documents/transactions.csv";
                     EmbedDocuments (map pageContent documents)]
                    [combine documents vectors],
            Resolved (make_executor env (mkChatOpenAI "gpt-4o" 20 key) 0)))
  \/ (exists evs e,
        boot env = (mkWorld evs [], Rejected e)
        /\ (evs = []
            \/ evs = [ReadFile "documents/transactions.csv"]
            \/ exists texts,
                 evs = [ReadFile "documents/transactions.csv";
                        EmbedDocuments texts])).
Proof.
  unfold boot, model, new_ChatOpenAI, bind.
  destruct (OPENAI_API_KEY env) as [key|] eqn:Hkey.
  2:{ right. exists [], ConfigError. split; [reflexivity | now left]. }
  unfold ret, startup, bind, loadTransactionChunks, bind, emit, lift, initial_world.
  cbv beta iota zeta. cbn [trace heap app].
  destruct (files env "documents/transactions.csv") as [content|] eqn:Hfile.
  2:{ right. eexists _, IOError. split; [reflexivity | right; now left]. }
  unfold ret. cbv beta iota zeta.
  destruct (createDocuments_reference content) as [documents Hdocs].
  rewrite Hdocs.
  unfold ret, createVectorStore, new_OpenAIEmbeddings, bind. rewrite Hkey.
  unfold ret, fromDocuments, bind, now, emit, lift, alloc.
  cbv beta iota zeta. cbn [trace heap app length].
  destruct (embedding_service env 1 (map pageContent documents)) as [vectors|].
  - left. exists key, documents, vectors.
    split; [reflexivity|]. split; [congruence | reflexivity].
  - right. eexists _, EmbeddingServiceError.
    split; [reflexivity | right; right; now eexists].
Qed.

Lemma delivered_typed lines : delivered (map AtPrompt lines) = lines.
Proof. induction lines as [|l lines IH]; cbn; [reflexivity | now rewrite IH]. Qed.

Lemma run_boot env lines :
  run env lines
  = match boot env with
    | (w0, Resolved executor) =>
        (emit (ConsoleLog banner);;
         shell_loop env executor lines;;
         emit RlClose) w0
    | (w0, Rejected e) => (w0, Rejected e)
    | (w0, Pending) => (w0, Pending)
    end.
Proof.
  unfold run, session, program, boot, main, typed, shell_loop, bind.
  cbn [arrivals ending]. rewrite delivered_typed.
  destruct (model env initial_world) as [w [m | e |]]; reflexivity.
Qed.

(* ================================================================== *)
(** * The loop *)

Lemma shell_loop_eof env executor w :
  shell_loop env executor [] w
  = (mkWorld (trace w ++ [Question "You: "]) (heap w), Pending).
Proof. reflexivity. Qed.

Lemma shell_loop_exit env executor line rest w :
  is_exit line = true ->
  shell_loop env executor (line :: rest) w
  = (mkWorld (trace w ++ [Question "You: "; ConsoleLog "👋 Goodbye!"]) (heap w),
     Resolved tt).
Proof.
  intros Hexit. unfold shell_loop. cbn [shell_loop_on]. rewrite Hexit.
  unfold bind, emit. cbn. now rewrite <- app_assoc.
Qed.

Lemma shell_loop_turn env executor line rest w :
  is_exit line = false ->
  shell_loop env executor (line :: rest) w
  = (result <- invoke env executor line;;
     emit (ConsoleLog (LF ++ "💸 Spending Summary 💸" ++ LF));;
     emit (ConsoleLog (output result ++ LF));;
     shell_loop env executor rest)
      (mkWorld (trace w ++ [Question "You: "]) (heap w)).
Proof.
  intros Hexit. unfold shell_loop. cbn [shell_loop_on closed].
  rewrite Hexit. reflexivity.
Qed.

Lemma invoke_yields env m vectorStore input w :
  exists evs o,
    yields (invoke env (make_executor env m vectorStore) input) w
      (ModelCall (formatMessages prompt input []) :: evs) o
    /\ count is_model_call evs <= 9
    /\ Forall (fun e => is_turn_event e = true) evs
    /\ o <> Pending.
Proof.
  unfold invoke. cbn [maxIterations make_executor].
  destruct (iterate_yields env m vectorStore 10 input [] w)
    as (evs & o & Hrun & Hcount & Hturn & Hsettled & Hfirst).
  destruct Hfirst as [later ->]; [discriminate|].
  exists later, o. split; [exact Hrun|].
  split; [change (count is_model_call (ModelCall (formatMessages prompt input [])
                                       :: later))
            with (S (count is_model_call later)) in Hcount; lia|].
  split; [now inversion Hturn | exact Hsettled].
Qed.

(** The events of the loop: questions, console lines and turn events. *)
Lemma shell_loop_yields env m vectorStore lines w :
  exists evs o,
    yields (shell_loop env (make_executor env m vectorStore) lines) w evs o
    /\ Forall (fun e => is_read_file e || is_embed_documents e = false) evs
    /\ (o = Pending ->
        count is_question evs = S (length lines)
        /\ Forall (fun line => is_exit line = false) lines)
    /\ (o = Resolved tt ->
        exists before line after,
          lines = (before ++ line :: after)%list /\ is_exit line = true)
    /\ (forall line rest,
          lines = line :: rest -> is_exit line = false ->
          exists later,
            evs = Question "You: "
                    :: ModelCall (formatMessages prompt line []) :: later).
Proof.
  revert w. induction lines as [|line rest IH]; intros w.
  - exists [Question "You: "], Pending.
    split; [apply shell_loop_eof|]. split; [repeat constructor|].
    split; [intros _; split; [reflexivity | constructor]|].
    split; discriminate.
  - destruct (is_exit line) eqn:Hexit.
    + exists [Question "You: "; ConsoleLog "👋 Goodbye!"], (Resolved tt).
      split; [now apply shell_loop_exit|]. split; [repeat constructor|].
      split; [discriminate|].
      split; [intros _; now exists [], line, rest|].
      intros l r Heq Hl. inversion Heq; subst. congruence.
    + unfold yields. rewrite (shell_loop_turn _ _ _ _ _ Hexit).
      set (w1 := mkWorld (trace w ++ [Question "You: "]) (heap w)).
      destruct (invoke_yields env m vectorStore line w1)
        as (evs1 & o1 & Hturn & _ & Hevs1 & Hsettled).
      unfold yields in Hturn. unfold bind at 1. rewrite Hturn.
      destruct o1 as [result | e |]; [| |now contradiction Hsettled].
      * unfold bind, emit. cbn [trace heap].
        match goal with
        | |- context [shell_loop _ _ rest ?w2] =>
            destruct (IH w2) as (evs & o & Hrest & Hloop & Hpending & Hdone & _)
        end.
        unfold yields in Hrest. rewrite Hrest. cbn [trace heap].
        exists (Question "You: "
                  :: ModelCall (formatMessages prompt line []) :: evs1
                  ++ ConsoleLog (LF ++ "💸 Spending Summary 💸" ++ LF)
                  :: ConsoleLog (output result ++ LF) :: evs)%list, o.
        split.
        { f_equal. f_equal. unfold w1. cbn [trace].
          repeat (rewrite <- app_assoc; cbn [app]). reflexivity. }
        split.
        { constructor; [reflexivity|]. constructor; [reflexivity|].
          apply Forall_app. split.
          - eapply Forall_impl; [|exact Hevs1].
            intros [] He; try reflexivity; discriminate.
          - now repeat constructor. }
        split.
        { intros ->. destruct (Hpending eq_refl) as [Hq Hnone].
          split; [|now constructor].
          change (count is_question (?a :: ?b :: ?l))
            with (S (count is_question l)).
          rewrite count_app.
          rewrite (count_none is_question evs1).
          - cbn. f_equal. exact Hq.
          - eapply Forall_impl; [|exact Hevs1].
            intros [] He; try reflexivity; discriminate. }
        split.
        { intros ->. destruct (Hdone eq_refl) as (before & l & after & -> & Hl).
          now exists (line :: before), l, after. }
        { intros l r Heq _. inversion Heq; subst. now eexists. }
      * exists (Question "You: "
                  :: ModelCall (formatMessages prompt line []) :: evs1), (Rejected e).
        split.
        { f_equal. f_equal. unfold w1. cbn [trace].
          now rewrite <- !app_assoc. }
        split.
        { constructor; [reflexivity|]. constructor; [reflexivity|].
          eapply Forall_impl; [|exact Hevs1].
          intros [] He; try reflexivity; discriminate. }
        split; [discriminate|]. split; [discriminate|].
        intros l r Heq _. inversion Heq; subst. now eexists.
Qed.

Lemma run_started env lines w0 executor :
  boot env = (w0, Resolved executor) ->
  run env lines
  = match shell_loop env executor lines
            (mkWorld (trace w0 ++ [ConsoleLog banner]) (heap w0)) with
    | (w', Resolved _) => (mkWorld (trace w' ++ [RlClose]) (heap w'), Resolved tt)
    | (w', Rejected e) => (w', Rejected e)
    | (w', Pending) => (w', Pending)
    end.
Proof.
  intros Hboot. rewrite run_boot, Hboot. unfold bind, emit. cbn [trace heap].
  destruct (shell_loop env executor lines _) as [w' [[] | e |]]; reflexivity.
Qed.

Lemma run_failed env lines w0 e :
  boot env = (w0, Rejected e) -> run env lines = (w0, Rejected e).
Proof. intros Hboot. now rewrite run_boot, Hboot. Qed.

(* ================================================================== *)
(** * The exit test *)

Ltac by_cases_on_char c :=
  destruct c as [[] [] [] [] [] [] [] []]; vm_compute;
  (split; [intros H; try discriminate H; auto
          | intros [H | H]; try discriminate H; reflexivity]).

Lemma lower_e c : lower c = "e"%char <-> c = "e"%char \/ c = "E"%char.
Proof. by_cases_on_char c. Qed.

Lemma lower_x c : lower c = "x"%char <-> c = "x"%char \/ c = "X"%char.
Proof. by_cases_on_char c. Qed.

Lemma lower_i c : lower c = "i"%char <-> c = "i"%char \/ c = "I"%char.
Proof. by_cases_on_char c. Qed.

Lemma lower_t c : lower c = "t"%char <-> c = "t"%char \/ c = "T"%char.
Proof. by_cases_on_char c. Qed.

(** The lines on which the loop breaks: the four letters of the keyword, each
    in either case, and nothing else. *)
Lemma is_exit_spellings line :
  is_exit line = true <->
  exists a b c d,
    line = String a (String b (String c (String d EmptyString)))
    /\ (a = "e" \/ a = "E")%char /\ (b = "x" \/ b = "X")%char
    /\ (c = "i" \/ c = "I")%char /\ (d = "t" \/ d = "T")%char.
Proof.
  unfold is_exit. rewrite String.eqb_eq. split.
  - destruct line as [|a [|b [|c [|d [|e l]]]]]; cbn [toLowerCase];
      intros H; try discriminate H.
    injection H as Ha Hb Hc Hd.
    exists a, b, c, d. split; [reflexivity|].
    now rewrite <- lower_e, <- lower_x, <- lower_i, <- lower_t.
  - intros (a & b & c & d & -> & Ha & Hb & Hc & Hd).
    apply lower_e in Ha. apply lower_x in Hb.
    apply lower_i in Hc. apply lower_t in Hd.
    cbn [toLowerCase]. now rewrite Ha, Hb, Hc, Hd.
Qed.

(** C6, as the design document states it, fails: the line [" exit"], once
    trimmed, is the exit keyword, yet the loop does not break on it. *)
Lemma exit_test_does_not_trim : ~ exit_test_trims.
Proof.
  intros Htrims. specialize (Htrims " exit").
  vm_compute in Htrims. discriminate Htrims.
Qed.

Example padded_exit_is_forwarded :
  snd (run (Sample.env Sample.chat_once) [" exit"]) = Pending
  /\ In (ModelCall (formatMessages prompt " exit" []))
        (trace (fst (run (Sample.env Sample.chat_once) [" exit"]))).
Proof. vm_compute. split; [reflexivity | intuition]. Qed.

(** C6, amended: the loop applies no processing to the line it reads, not even
    trimming.  It breaks exactly when the lower-cased line is ['exit'], that
    is on the four letters of the keyword in any case; every other line,
    the empty one included, is handed to the executor as it is, and reaches
    the model unchanged as the user message of the first call. *)
Theorem shell_forwards_raw_line env m vectorStore line rest w :
  (is_exit line = true <-> toLowerCase line = "exit")
  /\ (is_exit line = true <->
      exists a b c d,
        line = String a (String b (String c (String d EmptyString)))
        /\ (a = "e" \/ a = "E")%char /\ (b = "x" \/ b = "X")%char
        /\ (c = "i" \/ c = "I")%char /\ (d = "t" \/ d = "T")%char)
  /\ is_exit "" = false
  /\ (is_exit line = true ->
      shell_loop env (make_executor env m vectorStore) (line :: rest) w
      = (mkWorld (trace w ++ [Question "You: "; ConsoleLog "👋 Goodbye!"])
                 (heap w),
         Resolved tt))
  /\ (is_exit line = false ->
      shell_loop env (make_executor env m vectorStore) (line :: rest) w
      = (result <- invoke env (make_executor env m vectorStore) line;;
         emit (ConsoleLog (LF ++ "💸 Spending Summary 💸" ++ LF));;
         emit (ConsoleLog (output result ++ LF));;
         shell_loop env (make_executor env m vectorStore) rest)
          (mkWorld (trace w ++ [Question "You: "]) (heap w))
      /\ exists later o system,
           yields (shell_loop env (make_executor env m vectorStore) (line :: rest))
             w
             (Question "You: "
                :: ModelCall [SystemMessage system; UserMessage line] :: later)
             o).
Proof.
  split; [apply String.eqb_eq|]. split; [apply is_exit_spellings|].
  split; [reflexivity|]. split; [apply shell_loop_exit|].
  intros Hforward. split; [now apply shell_loop_turn|].
  destruct (shell_loop_yields env m vectorStore (line :: rest) w)
    as (evs & o & Hrun & _ & _ & _ & Hfirst).
  destruct (Hfirst line rest eq_refl Hforward) as [later ->].
  eexists later, o, _. exact Hrun.
Qed.

Lemma shell_forwards_raw_line_witness :
  is_exit " exit" = false
  /\ is_exit "eXiT" = true
  /\ exists later o system,
       yields (shell_loop (Sample.env Sample.chat_once)
                 (make_executor (Sample.env Sample.chat_once) Sample.llm 0)
                 [" exit"; "eXiT"])
         (Sample.ready Sample.chat_once)
         (Question "You: "
            :: ModelCall [SystemMessage system; UserMessage " exit"] :: later)
         o.
Proof.
  split; [reflexivity|]. split; [reflexivity|].
  apply (proj2 (proj2 (proj2 (proj2 (shell_forwards_raw_line
                                       (Sample.env Sample.chat_once) Sample.llm 0
                                       " exit" ["eXiT"]
                                       (Sample.ready Sample.chat_once)))))).
  reflexivity.
Defined.

(* ================================================================== *)
(** * A turn that fails *)


Example model_down_run :
  snd (run (Sample.env Sample.chat_down) [Sample.question; "exit"])
  = Rejected ModelServiceError
  /\ exit_code (snd (run (Sample.env Sample.chat_down) [Sample.question; "exit"]))
     = 1
  /\ count is_question
       (trace (fst (run (Sample.env Sample.chat_down) [Sample.question; "exit"])))
     = 1
  /\ last (trace (fst (run (Sample.env Sample.chat_down)
                         [Sample.question; "exit"]))) RlClose
     = ModelCall (formatMessages prompt Sample.question []).
Proof. vm_compute. repeat split. Qed.

(* ================================================================== *)
(** * Leaving at the first prompt *)

(** C2, as the design document states it, fails: when [EXIT] is the first
    line typed, the chunks have already been sent to the embedding service. *)
Lemma exit_first_has_network_call :
  ~ exit_first_without_network (Sample.env Sample.chat_once).
Proof.
  intros Hnone. destruct (Hnone "EXIT" [] eq_refl) as [_ Hcount].
  vm_compute in Hcount. discriminate Hcount.
Qed.

(** C2, amended: when the first line typed is the exit keyword in any letter
    case, no call to the chat model and no query embedding has been made; and
    when startup succeeded, the loop ends at once, [main] closes the interface
    and the process ends with status 0, the one network call made before that
    being the embedding of the chunks when the index was built at startup. *)
Theorem exit_first_only_startup_call env line rest :
  is_exit line = true ->
  count is_model_call (trace (fst (run env (line :: rest)))) = 0
  /\ count is_embed_query (trace (fst (run env (line :: rest)))) = 0
  /\ forall w0 executor,
       boot env = (w0, Resolved executor) ->
       run env (line :: rest)
       = (mkWorld (trace w0 ++ [ConsoleLog banner; Question "You: ";
                                ConsoleLog "👋 Goodbye!"; RlClose])
                  (heap w0),
          Resolved tt)
       /\ exit_code (snd (run env (line :: rest))) = 0
       /\ exists texts,
            filter is_network (trace (fst (run env (line :: rest))))
            = [EmbedDocuments texts].
Proof.
  intros Hexit.
  destruct (boot_cases env)
    as [(key & documents & vectors & _ & _ & Hboot)
       | (evs & e & Hboot & Hevs)].
  - assert (Hrun : run env (line :: rest)
                   = (mkWorld [ReadFile "documents/transactions.csv";
                               EmbedDocuments (map pageContent documents);
                               ConsoleLog banner; Question "You: ";
                               ConsoleLog "👋 Goodbye!"; RlClose]
                              [combine documents vectors],
                      Resolved tt)).
    { rewrite (run_started _ _ _ _ Hboot), (shell_loop_exit _ _ _ _ _ Hexit).
      reflexivity. }
    rewrite Hrun. split; [reflexivity|]. split; [reflexivity|].
    intros w0 executor Hboot'. rewrite Hboot in Hboot'.
    injection Hboot' as <- <-.
    split; [reflexivity|]. split; [reflexivity|]. now eexists.
  - rewrite (run_failed _ _ _ _ Hboot). cbn [fst trace].
    split; [|split].
    + destruct Hevs as [-> | [-> | [texts ->]]]; reflexivity.
    + destruct Hevs as [-> | [-> | [texts ->]]]; reflexivity.
    + intros w0 executor Hboot'. rewrite Hboot in Hboot'. discriminate Hboot'.
Qed.

Lemma exit_first_only_startup_call_witness :
  run (Sample.env Sample.chat_once) ["EXIT"; Sample.question]
  = (mkWorld [ReadFile "documents/transactions.csv";
              EmbedDocuments [Sample.csv];
              ConsoleLog banner; Question "You: ";
              ConsoleLog "👋 Goodbye!"; RlClose]
             [[(mkDocument Sample.csv 0, [53%Z])]],
     Resolved tt).
Proof.
  exact (proj1 (proj2 (proj2 (exit_first_only_startup_call
                                (Sample.env Sample.chat_once)
                                "EXIT" [Sample.question] eq_refl))
                 (mkWorld [ReadFile "documents/transactions.csv";
                           EmbedDocuments [Sample.csv]]
                          [[(mkDocument Sample.csv 0, [53%Z])]])
                 (make_executor (Sample.env Sample.chat_once) Sample.llm 0)
                 eq_refl)).
Defined.

(* ================================================================== *)
(** * The chunk set and the index during a run *)

Lemma shell_loop_step env executor line rest w :
  is_exit line = false ->
  shell_loop env executor (line :: rest) w
  = match invoke env executor line
            (mkWorld (trace w ++ [Question "You: "]) (heap w)) with
    | (w2, Resolved result) =>
        shell_loop env executor rest
          (mkWorld (trace w2 ++ [ConsoleLog (LF ++ "💸 Spending Summary 💸" ++ LF);
                                 ConsoleLog (output result ++ LF)])
                   (heap w2))
    | (w2, Rejected e) => (w2, Rejected e)
    | (w2, Pending) => (w2, Pending)
    end.
Proof.
  intros Hforward. rewrite (shell_loop_turn _ _ _ _ _ Hforward).
  unfold bind, emit. cbn [trace heap].
  destruct (invoke env executor line _) as [w2 [result | e |]];
    try reflexivity.
  now rewrite <- app_assoc.
Qed.

(** If the loop, given the lines [before] only, ends waiting for more, then
    given an exit line after them it ends by the [break]. *)
Lemma loop_prefix env m vectorStore before line rest w :
  is_exit line = true ->
  snd (shell_loop env (make_executor env m vectorStore) before w) = Pending ->
  snd (shell_loop env (make_executor env m vectorStore)
         (before ++ line :: rest) w) = Resolved tt.
Proof.
  intros Hexit. revert w.
  induction before as [|l before IH]; intros w Hwaiting; cbn [app].
  - now rewrite (shell_loop_exit _ _ _ _ _ Hexit).
  - destruct (is_exit l) eqn:Hl.
    + rewrite (shell_loop_exit _ _ _ _ _ Hl) in Hwaiting. discriminate Hwaiting.
    + rewrite (shell_loop_step _ _ _ _ _ Hl) in Hwaiting.
      rewrite (shell_loop_step _ _ _ _ _ Hl).
      destruct (invoke_yields env m vectorStore l
                  (mkWorld (trace w ++ [Question "You: "]) (heap w)))
        as (evs & o & Hturn & _ & _ & Hsettled).
      unfold yields in Hturn. rewrite Hturn in *.
      destruct o as [result | e |].
      * now apply IH.
      * discriminate Hwaiting.
      * now contradiction Hsettled.
Qed.

Lemma loop_events_counts (evs : list Event) :
  Forall (fun e => is_read_file e || is_embed_documents e = false) evs ->
  count is_read_file evs = 0 /\ count is_embed_documents evs = 0.
Proof.
  intros Hevs. split; apply count_none;
    (eapply Forall_impl; [|exact Hevs]); intros [] He;
    try reflexivity; discriminate He.
Qed.

(** C8: in every run the transactions file is read at most once, the chunks
    are embedded at most once and at most one vector store is ever created;
    when startup succeeds each happens exactly once and the store holds the
    same entries at the end of the run as when the loop began.  No operation
    of a turn (a search, a tool call, an invocation of the executor, any
    number of rounds of the loop) changes the store. *)
Theorem chunk_set_fixed env lines :
  count is_read_file (trace (fst (run env lines))) <= 1
  /\ count is_embed_documents (trace (fst (run env lines))) <= 1
  /\ length (heap (fst (run env lines))) <= 1
  /\ (forall w0 executor,
        boot env = (w0, Resolved executor) ->
        heap (fst (run env lines)) = heap w0
        /\ (exists documents vectors, heap w0 = [combine documents vectors])
        /\ count is_read_file (trace (fst (run env lines))) = 1
        /\ count is_embed_documents (trace (fst (run env lines))) = 1)
  /\ (forall vectorStore text k w,
        heap (fst (similaritySearch env vectorStore text k w)) = heap w)
  /\ (forall vectorStore input w,
        heap (fst (func (createTransactionRetrieverTool env vectorStore) input w))
        = heap w)
  /\ (forall m vectorStore input w,
        heap (fst (invoke env (make_executor env m vectorStore) input w))
        = heap w)
  /\ (forall m vectorStore remaining w,
        heap (fst (shell_loop env (make_executor env m vectorStore) remaining w))
        = heap w).
Proof.
  assert (Hloop : forall m vectorStore remaining w,
             heap (fst (shell_loop env (make_executor env m vectorStore)
                          remaining w)) = heap w).
  { intros m vectorStore remaining w.
    destruct (shell_loop_yields env m vectorStore remaining w)
      as (evs & o & Hrun & _).
    apply (yields_produced _ _ _ _ Hrun). }
  assert (Hrun : (exists evs e, run env lines = (mkWorld evs [], Rejected e)
                    /\ count is_read_file evs <= 1
                    /\ count is_embed_documents evs <= 1
                    /\ exists w0, boot env = (w0, Rejected e))
                 \/ (exists w0 executor documents vectors,
                       boot env = (w0, Resolved executor)
                       /\ heap w0 = [combine documents vectors]
                       /\ heap (fst (run env lines)) = heap w0
                       /\ count is_read_file (trace (fst (run env lines))) = 1
                       /\ count is_embed_documents (trace (fst (run env lines)))
                          = 1)).
  { destruct (boot_cases env)
      as [(key & documents & vectors & _ & _ & Hboot)
         | (evs & e & Hboot & Hevs)].
    - right. eexists _, _, documents, vectors.
      split; [exact Hboot|]. split; [reflexivity|].
      rewrite (run_started _ _ _ _ Hboot).
      destruct (shell_loop_yields env (mkChatOpenAI "gpt-4o" 20 key) 0 lines
                  (mkWorld (trace (mkWorld
                                     [ReadFile "documents/transactions.csv";
                                      EmbedDocuments (map pageContent documents)]
                                     [combine documents vectors])
                              ++ [ConsoleLog banner])
                           (heap (mkWorld
                                    [ReadFile "documents/transactions.csv";
                                     EmbedDocuments (map pageContent documents)]
                                    [combine documents vectors]))))
        as (evs & o & Hyields & Hevs & _).
      unfold yields in Hyields. rewrite Hyields.
      destruct (loop_events_counts evs Hevs) as [Hread Hembed].
      cbn [trace heap app].
      destruct o as [[] | e |]; cbn [fst trace heap];
        change (?a :: ?b :: ?c :: ?l) with ([a; b; c] ++ l)%list;
        rewrite ?count_app, Hread, Hembed; repeat split; reflexivity.
    - left. exists evs, e. rewrite (run_failed _ _ _ _ Hboot).
      split; [reflexivity|].
      split; [|split; [|eexists; exact Hboot]];
        destruct Hevs as [-> | [-> | [texts ->]]]; cbn; lia. }
  split; [|split; [|split; [|split; [|split; [|split; [|split]]]]]].
  - destruct Hrun as [(evs & e & -> & Hread & _) | (w0 & ex & d & v & _ & _ & _ & -> & _)];
      [exact Hread | lia].
  - destruct Hrun as [(evs & e & -> & _ & Hembed & _) | (w0 & ex & d & v & _ & _ & _ & _ & ->)];
      [exact Hembed | lia].
  - destruct Hrun as [(evs & e & -> & _) | (w0 & ex & d & v & _ & Hstore & -> & _)];
      [cbn; lia | rewrite Hstore; cbn; lia].
  - intros w0 executor Hboot.
    destruct Hrun as [(evs & e & _ & _ & _ & w0' & Hfailed)
                     | (w0' & ex & d & v & Hboot' & Hstore & Hheap & Hread & Hembed)].
    + rewrite Hboot in Hfailed. discriminate Hfailed.
    + rewrite Hboot in Hboot'. injection Hboot' as <- <-.
      split; [exact Hheap|]. split; [now exists d, v|]. now split.
  - intros vectorStore text k w.
    apply (yields_produced _ _ _ _ (similaritySearch_yields env vectorStore text k w)).
  - intros vectorStore input w.
    apply (yields_produced _ _ _ _ (tool_yields env vectorStore input w)).
  - intros m vectorStore input w.
    destruct (invoke_yields env m vectorStore input w) as (evs & o & Hturn & _).
    apply (yields_produced _ _ _ _ Hturn).
  - exact Hloop.
Qed.

Lemma chunk_set_fixed_witness :
  heap (fst (run (Sample.env Sample.chat_once) [Sample.question; "exit"]))
  = [[(mkDocument Sample.csv 0, [53%Z])]]
  /\ count is_read_file
       (trace (fst (run (Sample.env Sample.chat_once) [Sample.question; "exit"])))
     = 1
  /\ count is_embed_documents
       (trace (fst (run (Sample.env Sample.chat_once) [Sample.question; "exit"])))
     = 1.
Proof.
  destruct (proj1 (proj2 (proj2 (proj2
              (chunk_set_fixed (Sample.env Sample.chat_once)
                 [Sample.question; "exit"]))))
              (mkWorld [ReadFile "documents/transactions.csv";
                        EmbedDocuments [Sample.csv]]
                       [[(mkDocument Sample.csv 0, [53%Z])]])
              (make_executor (Sample.env Sample.chat_once) Sample.llm 0)
              eq_refl)
    as (Hheap & _ & Hread & Hembed).
  split; [exact Hheap|]. split; [exact Hread | exact Hembed].
Defined.

(* ================================================================== *)
(** * Exit status *)


(* ================================================================== *)
(** * The configuration of the splitter *)

Lemma length_string_of_list_ascii (l : list ascii) :
  String.length (string_of_list_ascii l) = length l.
Proof. induction l as [|c l IH]; cbn; [reflexivity | now rewrite IH]. Qed.

Lemma splitText_bounded cfg text chunks :
  Splitter.splitText cfg text = inr chunks ->
  Forall (fun chunk => String.length chunk <= Splitter.chunkSize cfg) chunks.
Proof.
  unfold Splitter.splitText.
  destruct (Splitter.chunkSize cfg <=? Splitter.chunkOverlap cfg);
    [discriminate|].
  destruct (list_ascii_of_string text) as [|c chars];
    intros Hsplit; injection Hsplit as <-; [constructor|].
  apply Forall_map.
  eapply Forall_impl;
    [|exact (windows_bounded (Splitter.chunkSize cfg) (Splitter.chunkOverlap cfg)
               (length (c :: chars)) (c :: chars))].
  intros chunk Hchunk. now rewrite length_string_of_list_ascii.
Qed.

(** C10: [loadTransactionChunks] splits with chunk size 1000 and overlap 100;
    the overlap is below the chunk size, so the splitter never refuses its
    configuration: reading the chunks can only fail on the file, and when the
    file is there the chunks are those of the splitter run with these two
    values, none longer than 1000 characters. *)
Theorem splitter_configuration env w :
  Splitter.chunkOverlap (Splitter.mkConfig 1000 100)
  < Splitter.chunkSize (Splitter.mkConfig 1000 100)
  /\ (forall content,
        Splitter.createDocuments (Splitter.mkConfig 1000 100) content
        <> inl ConfigError)
  /\ snd (loadTransactionChunks env w) <> Rejected ConfigError
  /\ (forall content,
        files env "documents/transactions.csv" = Some content ->
        exists documents,
          Splitter.createDocuments (Splitter.mkConfig 1000 100) content
          = inr documents
          /\ loadTransactionChunks env w
             = (mkWorld (trace w ++ [ReadFile "documents/transactions.csv"])
                        (heap w),
                Resolved documents)
          /\ Forall (fun d => String.length (pageContent d) <= 1000) documents).
Proof.
  assert (Hload : forall content,
             files env "documents/transactions.csv" = Some content ->
             forall documents,
               Splitter.createDocuments (Splitter.mkConfig 1000 100) content
               = inr documents ->
               loadTransactionChunks env w
               = (mkWorld (trace w ++ [ReadFile "documents/transactions.csv"])
                          (heap w),
                  Resolved documents)).
  { intros content Hfile documents Hdocs.
    unfold loadTransactionChunks, bind, emit, lift. cbv beta iota zeta.
    rewrite Hfile. unfold ret. cbv beta iota zeta. now rewrite Hdocs. }
  split; [cbn; lia|]. split; [|split].
  - intros content.
    destruct (createDocuments_reference content) as [documents ->].
    discriminate.
  - destruct (files env "documents/transactions.csv") as [content|] eqn:Hfile.
    + destruct (createDocuments_reference content) as [documents Hdocs].
      rewrite (Hload content eq_refl documents Hdocs). discriminate.
    + unfold loadTransactionChunks, bind, emit, lift. cbv beta iota zeta.
      rewrite Hfile. discriminate.
  - intros content Hfile.
    destruct (createDocuments_reference content) as [documents Hdocs].
    exists documents. split; [exact Hdocs|].
    split; [exact (Hload content Hfile documents Hdocs)|].
    unfold Splitter.createDocuments in Hdocs.
    destruct (Splitter.splitText (Splitter.mkConfig 1000 100) content)
      as [e | chunks] eqn:Hsplit; [discriminate Hdocs|].
    injection Hdocs as <-.
    apply splitText_bounded in Hsplit.
    cbn [Splitter.chunkSize] in Hsplit.
    rewrite <- (pageContent_number 0 chunks) in Hsplit.
    now apply Forall_map in Hsplit.
Qed.

Lemma splitter_configuration_witness :
  exists documents,
    Splitter.createDocuments (Splitter.mkConfig 1000 100) Sample.csv
    = inr documents
    /\ loadTransactionChunks (Sample.env Sample.chat_once) initial_world
       = (mkWorld (trace initial_world
                     ++ [ReadFile "documents/transactions.csv"])
                  (heap initial_world),
          Resolved documents)
    /\ Forall (fun d => String.length (pageContent d) <= 1000) documents.
Proof.
  apply (proj2 (proj2 (proj2 (splitter_configuration
                                (Sample.env Sample.chat_once) initial_world)))
           Sample.csv).
  reflexivity.
Defined.

(* ================================================================== *)
(** * Further properties of [app.js] *)

Lemma yields_unique {A} (m : Async A) w evs evs' o o' :
  yields m w evs o -> yields m w evs' o' -> evs = evs' /\ o = o'.
Proof.
  unfold yields. intros -> Heq. injection Heq as Htrace Ho.
  split; [now apply app_inv_head in Htrace | exact Ho].
Qed.

(** ** Lines typed after the exit keyword *)

Lemma loop_stops_at_exit env executor before line rest rest' w :
  is_exit line = true ->
  shell_loop env executor (before ++ line :: rest) w
  = shell_loop env executor (before ++ line :: rest') w.
Proof.
  intros Hexit. revert w.
  induction before as [|l before IH]; intros w; cbn [app].
  - now rewrite !(shell_loop_exit _ _ _ _ _ Hexit).
  - destruct (is_exit l) eqn:Hl.
    + now rewrite !(shell_loop_exit _ _ _ _ _ Hl).
    + rewrite !(shell_loop_step _ _ _ _ _ Hl).
      destruct (invoke env executor l _) as [w2 [result | e |]];
        [apply IH | reflexivity | reflexivity].
Qed.

(** X1: the loop reads nothing after an exit keyword: whatever is typed
    after it, the loop and the whole process behave as if the input had ended
    with that line. *)
Theorem lines_after_exit_never_read env before line rest :
  is_exit line = true ->
  (forall executor w,
     shell_loop env executor (before ++ line :: rest) w
     = shell_loop env executor (before ++ [line]) w)
  /\ run env (before ++ line :: rest) = run env (before ++ [line]).
Proof.
  intros Hexit. split.
  - intros executor w. now apply loop_stops_at_exit.
  - rewrite !run_boot. destruct (boot env) as [w0 [executor | e |]];
      try reflexivity.
    unfold bind. destruct (emit (ConsoleLog banner) w0) as [w1 [[] | e |]];
      try reflexivity.
    now rewrite (loop_stops_at_exit env executor before line rest [] w1 Hexit).
Qed.

Lemma lines_after_exit_never_read_witness :
  run (Sample.env Sample.chat_once)
      ([Sample.question] ++ "EXIT" :: ["What about rent?"; "exit"])
  = run (Sample.env Sample.chat_once) ([Sample.question] ++ ["EXIT"]).
Proof.
  apply (proj2 (lines_after_exit_never_read (Sample.env Sample.chat_once)
                  [Sample.question] "EXIT" ["What about rent?"; "exit"]
                  eq_refl)).
Defined.

(** ** Startup, case by case *)

Lemma boot_unfold env :
  boot env
  = match OPENAI_API_KEY env with
    | None => (initial_world, Rejected ConfigError)
    | Some key =>
        match files env "documents/transactions.csv" with
        | None =>
            (mkWorld [ReadFile "documents/transactions.csv"] [],
             Rejected IOError)
        | Some content =>
            match Splitter.createDocuments (Splitter.mkConfig 1000 100) content
            with
            | inl e =>
                (mkWorld [ReadFile "documents/transactions.csv"] [], Rejected e)
            | inr documents =>
                match embedding_service env 1 (map pageContent documents) with
                | None =>
                    (mkWorld [ReadFile "documents/transactions.csv";
                              EmbedDocuments (map pageContent documents)] [],
                     Rejected EmbeddingServiceError)
                | Some vectors =>
                    (mkWorld [ReadFile "documents/transactions.csv";
                              EmbedDocuments (map pageContent documents)]
                             [combine documents vectors],
                     Resolved (make_executor env
                                 (mkChatOpenAI "gpt-4o" 20 key) 0))
                end
            end
        end
    end.
Proof.
  unfold boot, model, new_ChatOpenAI, bind.
  destruct (OPENAI_API_KEY env) as [key|] eqn:Hkey; [|reflexivity].
  unfold ret, startup, bind, loadTransactionChunks, bind, emit, lift, initial_world.
  cbv beta iota zeta. cbn [trace heap app].
  destruct (files env "documents/transactions.csv") as [content|];
    [|reflexivity].
  unfold ret. cbv beta iota zeta.
  destruct (Splitter.createDocuments (Splitter.mkConfig 1000 100) content)
    as [e | documents]; [reflexivity|].
  unfold ret, createVectorStore, new_OpenAIEmbeddings, bind. rewrite Hkey.
  unfold ret, fromDocuments, bind, now, emit, lift, alloc.
  cbv beta iota zeta. cbn [trace heap app length].
  destruct (embedding_service env 1 (map pageContent documents)); reflexivity.
Qed.

(** X2: startup fails on the first of these that is wrong, in this order: the
    credential (nothing has been done yet, the file is not read), the
    transactions file (it has been looked for, nothing was sent), the
    embedding request (the chunks were sent, no store exists).  When all three
    are in order startup succeeds after exactly one file read and one
    embedding request, with one store that pairs the chunks, in order, with
    the vectors received; given one vector per chunk the store holds every
    chunk. *)
Theorem startup_case_by_case env :
  (OPENAI_API_KEY env = None ->
   boot env = (initial_world, Rejected ConfigError))
  /\ (forall key,
        OPENAI_API_KEY env = Some key ->
        files env "documents/transactions.csv" = None ->
        boot env = (mkWorld [ReadFile "documents/transactions.csv"] [],
                    Rejected IOError))
  /\ (forall key content,
        OPENAI_API_KEY env = Some key ->
        files env "documents/transactions.csv" = Some content ->
        exists documents,
          loadTransactionChunks env initial_world
          = (mkWorld [ReadFile "documents/transactions.csv"] [],
             Resolved documents)
          /\ (embedding_service env 1 (map pageContent documents) = None ->
              boot env
              = (mkWorld [ReadFile "documents/transactions.csv";
                          EmbedDocuments (map pageContent documents)] [],
                 Rejected EmbeddingServiceError))
          /\ (forall vectors,
                embedding_service env 1 (map pageContent documents)
                = Some vectors ->
                boot env
                = (mkWorld [ReadFile "documents/transactions.csv";
                            EmbedDocuments (map pageContent documents)]
                           [combine documents vectors],
                   Resolved (make_executor env (mkChatOpenAI "gpt-4o" 20 key) 0))
                /\ (length vectors = length documents ->
                    map fst (combine documents vectors) = documents))).
Proof.
  split; [|split].
  - intros Hkey. now rewrite boot_unfold, Hkey.
  - intros key Hkey Hfile. now rewrite boot_unfold, Hkey, Hfile.
  - intros key content Hkey Hfile.
    destruct (createDocuments_reference content) as [documents Hdocs].
    exists documents. split; [|split].
    + unfold loadTransactionChunks, bind, emit, lift. cbv beta iota zeta.
      rewrite Hfile. unfold ret. cbv beta iota zeta. now rewrite Hdocs.
    + intros Hdown. now rewrite boot_unfold, Hkey, Hfile, Hdocs, Hdown.
    + intros vectors Hvectors. split.
      * now rewrite boot_unfold, Hkey, Hfile, Hdocs, Hvectors.
      * intros Hlen. clear - Hlen. revert vectors Hlen.
        induction documents as [|d documents IH]; intros [|v vectors] Hlen;
          cbn in *; try reflexivity; try discriminate.
        f_equal. apply IH. now injection Hlen.
Qed.

Lemma startup_case_by_case_witness :
  boot Sample.env_no_key = (initial_world, Rejected ConfigError)
  /\ boot Sample.env_no_file
     = (mkWorld [ReadFile "documents/transactions.csv"] [], Rejected IOError)
  /\ (exists documents,
        loadTransactionChunks Scenario.env_embedding_down initial_world
        = (mkWorld [ReadFile "documents/transactions.csv"] [],
           Resolved documents)
        /\ boot Scenario.env_embedding_down
           = (mkWorld [ReadFile "documents/transactions.csv";
                       EmbedDocuments (map pageContent documents)] [],
              Rejected EmbeddingServiceError))
  /\ boot (Sample.env Sample.chat_once)
     = (mkWorld [ReadFile "documents/transactions.csv";
                 EmbedDocuments [Sample.csv]]
                [combine [mkDocument Sample.csv 0] [[53%Z]]],
        Resolved (make_executor (Sample.env Sample.chat_once)
                    (mkChatOpenAI "gpt-4o" 20 "sk-test") 0))
  /\ map fst (combine [mkDocument Sample.csv 0] [[53%Z]])
     = [mkDocument Sample.csv 0].
Proof.
  split; [|split; [|split]].
  - apply (proj1 (startup_case_by_case Sample.env_no_key)). reflexivity.
  - apply (proj1 (proj2 (startup_case_by_case Sample.env_no_file)) "sk-test");
      reflexivity.
  - destruct (proj2 (proj2 (startup_case_by_case Scenario.env_embedding_down))
                "sk-test" Sample.csv eq_refl eq_refl)
      as (documents & Hload & Hdown & _).
    exists documents. split; [exact Hload|]. apply Hdown. reflexivity.
  - destruct (proj2 (proj2 (startup_case_by_case (Sample.env Sample.chat_once)))
                "sk-test" Sample.csv eq_refl eq_refl)
      as (documents & Hload & _ & Hup).
    assert (Hdocs : documents = [mkDocument Sample.csv 0]).
    { vm_compute in Hload. now injection Hload as <-. }
    subst documents.
    destruct (Hup [[53%Z]] eq_refl) as [Hboot Hfst].
    split; [exact Hboot | exact (Hfst eq_refl)].
Defined.

(** ** Counting what a turn and a run do *)

Lemma iterate_accounting env m vectorStore budget input scratchpad w :
  Forall (fun x => is_tool_call x = true) scratchpad ->
  exists evs o,
    yields (iterate env (make_executor env m vectorStore) budget input scratchpad)
      w evs o
    /\ count is_model_call evs <= budget
    /\ count is_embed_query evs <= count is_model_call evs
    /\ Forall (fun e =>
                 match e with
                 | ModelCall messages =>
                     exists calls,
                       messages = formatMessages prompt input calls
                       /\ Forall (fun x => is_tool_call x = true) calls
                       /\ length calls < length scratchpad + budget
                 | _ => True
                 end) evs.
Proof.
  revert scratchpad w.
  induction budget as [|budget IH]; intros scratchpad w Hscratch.
  - exists [], (Resolved (mkResult stopped_output)).
    split; [apply yields_ret|]. repeat split; try constructor.
  - cbn [iterate].
    pose proof (plan_yields env (agent (make_executor env m vectorStore))
                  input scratchpad w) as Hplan.
    cbn [agent make_executor createOpenAIFunctionsAgent agent_prompt] in Hplan.
    set (messages := formatMessages prompt input scratchpad) in *.
    set (w1 := mkWorld (trace w ++ [ModelCall messages]) (heap w)).
    assert (Hfirst : exists calls,
               messages = formatMessages prompt input calls
               /\ Forall (fun x => is_tool_call x = true) calls
               /\ length calls < length scratchpad + S budget)
      by (exists scratchpad; repeat split; [exact Hscratch | lia]).
    destruct (chat_service env (length (trace w)) messages)
      as [[text | tool argument]|].
    + exists [ModelCall messages], (Resolved (mkResult text)).
      split.
      { rewrite <- (app_nil_r [ModelCall messages]).
        eapply yields_bind; [exact Hplan | apply yields_ret]. }
      split; [cbn; lia|]. split; [cbn; lia|]. now repeat constructor.
    + destruct (run_tool_yields env m vectorStore tool argument w1)
        as (evs2 & observation & Htool & Hevs2).
      assert (Hcount2 : count is_model_call evs2 = 0
                        /\ count is_embed_query evs2 <= 1)
        by (destruct Hevs2 as [-> | ->]; cbn; lia).
      assert (Hshape2 : Forall (fun e =>
                 match e with
                 | ModelCall messages =>
                     exists calls,
                       messages = formatMessages prompt input calls
                       /\ Forall (fun x => is_tool_call x = true) calls
                       /\ length calls < length scratchpad + S budget
                 | _ => True
                 end) evs2)
        by (destruct Hevs2 as [-> | ->]; repeat constructor).
      destruct (IH (scratchpad ++ [ToolCallMessage tool argument observation])%list
                  (mkWorld (trace w1 ++ evs2) (heap w1)))
        as (evs3 & o3 & Hrest & Hmodel3 & Hembed3 & Hshape3).
      { apply Forall_app. split; [exact Hscratch | now repeat constructor]. }
      exists ([ModelCall messages] ++ evs2 ++ evs3)%list, o3.
      split.
      { eapply yields_bind; [exact Hplan|].
        eapply yields_bind; [exact Htool | exact Hrest]. }
      rewrite !count_app. cbn [count filter is_model_call is_embed_query length].
      split; [lia|]. split; [lia|].
      rewrite !Forall_app. split; [now repeat constructor|].
      split; [exact Hshape2|].
      eapply Forall_impl; [|exact Hshape3].
      intros [] He; try exact I.
      destruct He as (calls & Hm & Hcalls & Hlen).
      exists calls. rewrite length_app in Hlen. cbn in Hlen.
      repeat split; [exact Hm | exact Hcalls | lia].
    + exists [ModelCall messages], (Rejected ModelServiceError).
      split; [apply yields_bind_rejected; exact Hplan|].
      split; [cbn; lia|]. split; [cbn; lia|]. now repeat constructor.
Qed.

Lemma invoke_accounting env m vectorStore input w :
  exists evs o,
    yields (invoke env (make_executor env m vectorStore) input) w evs o
    /\ count is_model_call evs <= 10
    /\ count is_embed_query evs <= count is_model_call evs
    /\ count is_console_log evs = 0
    /\ count is_question evs = 0
    /\ o <> Pending
    /\ Forall (call_for input) evs.
Proof.
  destruct (invoke_yields env m vectorStore input w)
    as (later & o & Hrun & _ & Hturn & Hsettled).
  unfold invoke in *. cbn [maxIterations make_executor] in *.
  destruct (iterate_accounting env m vectorStore 10 input [] w (Forall_nil _))
    as (evs & o' & Hrun' & Hmodel & Hembed & Hshape).
  destruct (yields_unique _ _ _ _ _ _ Hrun' Hrun) as [-> ->].
  eexists _, o. split; [exact Hrun|].
  split; [exact Hmodel|]. split; [exact Hembed|].
  split.
  { change (count is_console_log later = 0). apply count_none.
    eapply Forall_impl; [|exact Hturn]. intros [] He; try reflexivity;
      discriminate He. }
  split.
  { change (count is_question later = 0). apply count_none.
    eapply Forall_impl; [|exact Hturn]. intros [] He; try reflexivity;
      discriminate He. }
  split; [exact Hsettled|].
  eapply Forall_impl; [|exact Hshape].
  intros [] He; try exact I.
  destruct He as (calls & Hm & Hcalls & Hlen). exists calls.
  cbn in Hlen. repeat split; [exact Hm | exact Hcalls | lia].
Qed.

Ltac count_arith :=
  unfold count in *; rewrite ?filter_app, ?length_app in *;
  cbn [filter length app is_model_call is_embed_query is_console_log
       is_question] in *; lia.

Lemma loop_accounting env m vectorStore lines w :
  exists evs o,
    yields (shell_loop env (make_executor env m vectorStore) lines) w evs o
    /\ count is_model_call evs <= 10 * length lines
    /\ count is_embed_query evs <= count is_model_call evs
    /\ Forall (fun e =>
                 is_model_call e = true ->
                 exists line,
                   In line lines /\ is_exit line = false /\ call_for line e) evs
    /\ match o with
       | Pending =>
           Forall (fun l => is_exit l = false) lines
           /\ count is_console_log evs = 2 * length lines
           /\ count is_question evs = S (length lines)
       | Resolved _ =>
           exists before line after,
             lines = (before ++ line :: after)%list
             /\ is_exit line = true
             /\ Forall (fun l => is_exit l = false) before
             /\ count is_console_log evs = S (2 * length before)
             /\ count is_question evs = S (length before)
             /\ exists earlier,
                  evs = (earlier ++ [ConsoleLog "👋 Goodbye!"])%list
       | Rejected _ =>
           exists before line after,
             lines = (before ++ line :: after)%list
             /\ Forall (fun l => is_exit l = false) (before ++ [line])
             /\ count is_console_log evs = 2 * length before
             /\ count is_question evs = S (length before)
       end.
Proof.
  revert w. induction lines as [|line rest IH]; intros w.
  - exists [Question "You: "], Pending.
    split; [apply shell_loop_eof|]. split; [cbn; lia|]. split; [cbn; lia|].
    split; [repeat constructor; discriminate|].
    split; [constructor | split; reflexivity].
  - destruct (is_exit line) eqn:Hexit.
    + exists [Question "You: "; ConsoleLog "👋 Goodbye!"], (Resolved tt).
      split; [now apply shell_loop_exit|]. split; [cbn; lia|].
      split; [cbn; lia|].
      split; [repeat constructor; discriminate|].
      exists [], line, rest. split; [reflexivity|]. split; [exact Hexit|].
      split; [constructor|]. split; [reflexivity|]. split; [reflexivity|].
      now exists [Question "You: "].
    + unfold yields. rewrite (shell_loop_step _ _ _ _ _ Hexit).
      set (w1 := mkWorld (trace w ++ [Question "You: "]) (heap w)).
      destruct (invoke_accounting env m vectorStore line w1)
        as (evs1 & o1 & Hturn & Hmodel1 & Hembed1 & Hconsole1 & Hquestion1
            & Hsettled & Hshape1).
      assert (Hshape1' : Forall (fun e =>
                 is_model_call e = true ->
                 exists l,
                   In l (line :: rest) /\ is_exit l = false /\ call_for l e)
                evs1).
      { eapply Forall_impl; [|exact Hshape1].
        intros e He _. exists line. split; [now left | now split]. }
      unfold yields in Hturn. rewrite Hturn.
      destruct o1 as [result | e |]; [| |now contradiction Hsettled].
      * match goal with
        | |- context [shell_loop _ _ rest ?w2] =>
            destruct (IH w2)
              as (evs & o & Hrest & Hmodel & Hembed & Hshape & Hend)
        end.
        unfold yields in Hrest. rewrite Hrest. cbn [trace heap].
        exists ([Question "You: "] ++ evs1
                  ++ [ConsoleLog (LF ++ "💸 Spending Summary 💸" ++ LF);
                      ConsoleLog (output result ++ LF)] ++ evs)%list, o.
        split.
        { f_equal. f_equal. unfold w1. cbn [trace].
          repeat (rewrite <- app_assoc; cbn [app]). reflexivity. }
        split; [cbn [length]; count_arith|]. split; [count_arith|].
        split.
        { rewrite !Forall_app. split; [repeat constructor; discriminate|].
          split; [exact Hshape1'|].
          split; [repeat constructor; discriminate|].
          eapply Forall_impl; [|exact Hshape].
          intros ev Hev Hcall. destruct (Hev Hcall) as (l & Hin & Hl).
          exists l. split; [now right | exact Hl]. }
        destruct o as [[] | e |].
        -- destruct Hend as (before & l & after & -> & Hl & Hbefore
                             & Hconsole & Hquestion & earlier & ->).
           exists (line :: before), l, after.
           split; [reflexivity|]. split; [exact Hl|].
           split; [now constructor|].
           split; [cbn [length]; count_arith|].
           split; [cbn [length]; count_arith|].
           exists ([Question "You: "] ++ evs1
                     ++ [ConsoleLog (LF ++ "💸 Spending Summary 💸" ++ LF);
                         ConsoleLog (output result ++ LF)] ++ earlier)%list.
           repeat (rewrite <- app_assoc; cbn [app]). reflexivity.
        -- destruct Hend as (before & l & after & -> & Hbefore
                             & Hconsole & Hquestion).
           exists (line :: before), l, after.
           split; [reflexivity|]. split; [now constructor|].
           split; cbn [length]; count_arith.
        -- destruct Hend as (Hnone & Hconsole & Hquestion).
           split; [now constructor|].
           split; cbn [length]; count_arith.
      * exists ([Question "You: "] ++ evs1)%list, (Rejected e).
        split.
        { f_equal. f_equal. unfold w1. cbn [trace].
          now rewrite <- app_assoc. }
        split; [cbn [length]; count_arith|]. split; [count_arith|].
        split.
        { rewrite Forall_app. split; [repeat constructor; discriminate|].
          exact Hshape1'. }
        exists [], line, rest. split; [reflexivity|].
        split; [now repeat constructor|].
        split; cbn [length]; count_arith.
Qed.

Lemma run_cases env lines :
  (exists w0 e, boot env = (w0, Rejected e)
                /\ run env lines = (w0, Rejected e)
                /\ Forall (fun ev => is_model_call ev = false
                                     /\ is_embed_query ev = false
                                     /\ is_console_log ev = false
                                     /\ is_question ev = false) (trace w0)
                /\ count is_embed_documents (trace w0) <= 1)
  \/ (exists key texts store evs o,
        boot env
        = (mkWorld [ReadFile "documents/transactions.csv"; EmbedDocuments texts]
                   [store],
           Resolved (make_executor env (mkChatOpenAI "gpt-4o" 20 key) 0))
        /\ yields (shell_loop env
                     (make_executor env (mkChatOpenAI "gpt-4o" 20 key) 0) lines)
             (mkWorld [ReadFile "documents/transactions.csv";
                       EmbedDocuments texts; ConsoleLog banner] [store])
             evs o
        /\ run env lines
           = (mkWorld ([ReadFile "documents/transactions.csv";
                        EmbedDocuments texts; ConsoleLog banner]
                         ++ evs
                         ++ match o with
                            | Resolved _ => [RlClose]
                            | _ => []
                            end)
                      [store],
              match o with Resolved _ => Resolved tt | _ => o end)).
Proof.
  destruct (boot_cases env)
    as [(key & documents & vectors & _ & _ & Hboot) | (evs & e & Hboot & Hevs)].
  - right.
    destruct (shell_loop_yields env (mkChatOpenAI "gpt-4o" 20 key) 0 lines
                (mkWorld [ReadFile "documents/transactions.csv";
                          EmbedDocuments (map pageContent documents);
                          ConsoleLog banner] [combine documents vectors]))
      as (evs & o & Hloop & _).
    exists key, (map pageContent documents), (combine documents vectors), evs, o.
    split; [exact Hboot|]. split; [exact Hloop|].
    rewrite (run_started _ _ _ _ Hboot). cbn [trace heap app].
    unfold yields in Hloop. rewrite Hloop. cbn [trace heap].
    destruct o as [[] | e |]; cbn [app]; rewrite ?app_nil_r; reflexivity.
  - left. exists (mkWorld evs []), e.
    split; [exact Hboot|]. split; [now apply run_failed|]. cbn [trace].
    destruct Hevs as [-> | [-> | [texts ->]]]; split;
      repeat constructor; try (cbn; lia).
Qed.

(** X3: the calls of [console.log] and [rl.question] that [app.js] itself
    makes in a run at a terminal.  What the libraries write on the console
    on their own account, as the executor does under [verbose: true], is not
    among the events and is not counted here.  When the input ends with the
    loop waiting, no line was the exit keyword, [app.js] has called
    [console.log] once for the banner and twice for every line, and has asked
    one question per line plus the one left pending.  When [main] returns,
    the lines before the first exit keyword were answered in the same way,
    the last call of [console.log] printed the goodbye line and the interface
    was closed after it.  When the run is rejected, fewer questions were
    asked than lines were typed or as many. *)
Theorem run_transcript env lines :
  (snd (run env lines) = Pending ->
   Forall (fun l => is_exit l = false) lines
   /\ count is_console_log (trace (fst (run env lines))) = 1 + 2 * length lines
   /\ count is_question (trace (fst (run env lines))) = S (length lines))
  /\ (snd (run env lines) = Resolved tt ->
      exists before line after,
        lines = (before ++ line :: after)%list
        /\ is_exit line = true
        /\ Forall (fun l => is_exit l = false) before
        /\ count is_console_log (trace (fst (run env lines)))
           = 2 + 2 * length before
        /\ count is_question (trace (fst (run env lines))) = S (length before)
        /\ exists earlier,
             trace (fst (run env lines))
             = (earlier ++ [ConsoleLog "👋 Goodbye!"; RlClose])%list)
  /\ (forall e,
        snd (run env lines) = Rejected e ->
        count is_question (trace (fst (run env lines))) <= length lines).
Proof.
  destruct (run_cases env lines)
    as [(w0 & e0 & _ & Hrun & Hquiet & _)
       | (key & texts & store & evs & o & _ & Hloop & Hrun)].
  - rewrite Hrun. cbn [fst snd].
    split; [discriminate|]. split; [discriminate|]. intros e _.
    rewrite (count_none is_question); [lia|].
    eapply Forall_impl; [|exact Hquiet]. now intros ev (_ & _ & _ & Hq).
  - destruct (loop_accounting env (mkChatOpenAI "gpt-4o" 20 key) 0 lines
                (mkWorld [ReadFile "documents/transactions.csv";
                          EmbedDocuments texts; ConsoleLog banner] [store]))
      as (evs' & o' & Hloop' & _ & _ & _ & Hend).
    destruct (yields_unique _ _ _ _ _ _ Hloop' Hloop) as [-> ->].
    rewrite Hrun. cbn [fst snd trace].
    destruct o as [[] | e |].
    + split; [discriminate|]. split; [|discriminate]. intros _.
      destruct Hend as (before & line & after & Hlines & Hexit & Hbefore
                        & Hconsole & Hquestion & earlier & Hlast).
      exists before, line, after. split; [exact Hlines|]. split; [exact Hexit|].
      split; [exact Hbefore|]. split; [count_arith|]. split; [count_arith|].
      exists ([ReadFile "documents/transactions.csv"; EmbedDocuments texts;
               ConsoleLog banner] ++ earlier)%list.
      rewrite Hlast. repeat (rewrite <- app_assoc; cbn [app]). reflexivity.
    + split; [discriminate|]. split; [discriminate|]. intros e' _.
      destruct Hend as (before & line & after & -> & _ & _ & Hquestion).
      rewrite length_app. cbn [length]. count_arith.
    + split; [|split; discriminate]. intros _.
      destruct Hend as (Hnone & Hconsole & Hquestion).
      split; [exact Hnone|]. split; count_arith.
Qed.

Lemma run_transcript_witness :
  count is_console_log
    (trace (fst (run (Sample.env Sample.chat_once)
                   [Sample.question; "What about rent?"])))
  = 5
  /\ (exists before line after,
        [Sample.question; "Exit"; "more"] = (before ++ line :: after)%list
        /\ is_exit line = true
        /\ count is_question
             (trace (fst (run (Sample.env Sample.chat_once)
                            [Sample.question; "Exit"; "more"])))
           = S (length before))
  /\ count is_question
       (trace (fst (run (Sample.env Sample.chat_down)
                      [Sample.question; "exit"]))) <= 2.
Proof.
  split; [|split].
  - refine (proj1 (proj2 (proj1 (run_transcript (Sample.env Sample.chat_once)
                                   [Sample.question; "What about rent?"]) _))).
    vm_compute. reflexivity.
  - destruct (proj1 (proj2 (run_transcript (Sample.env Sample.chat_once)
                              [Sample.question; "Exit"; "more"])))
      as (before & line & after & Hlines & Hexit & _ & _ & Hquestion & _).
    + vm_compute. reflexivity.
    + now exists before, line, after.
  - refine (proj2 (proj2 (run_transcript (Sample.env Sample.chat_down)
                            [Sample.question; "exit"]))
              ModelServiceError _).
    vm_compute. reflexivity.
Defined.

Lemma count_network (evs : list Event) :
  count is_network evs
  = count is_embed_documents evs + count is_embed_query evs
    + count is_model_call evs.
Proof.
  unfold count. induction evs as [|e evs IH]; [reflexivity|].
  destruct e; cbn [filter is_network is_embed_documents is_embed_query
                   is_model_call length]; lia.
Qed.

(** X4: the calls a run can cost.  A run on [n] lines makes at most [10 * n]
    calls to the chat model, no more query embeddings than model calls, and
    at most [1 + 20 * n] network calls in all, the one being the embedding of
    the chunks at startup. *)
Theorem run_call_budget env lines :
  count is_model_call (trace (fst (run env lines))) <= 10 * length lines
  /\ count is_embed_query (trace (fst (run env lines)))
     <= count is_model_call (trace (fst (run env lines)))
  /\ count is_network (trace (fst (run env lines))) <= 1 + 20 * length lines.
Proof.
  rewrite count_network.
  destruct (run_cases env lines)
    as [(w0 & e0 & _ & Hrun & Hquiet & Hdocs)
       | (key & texts & store & evs & o & _ & Hloop & Hrun)].
  - rewrite Hrun. cbn [fst].
    rewrite (count_none is_model_call), (count_none is_embed_query);
      [lia | |];
      (eapply Forall_impl; [|exact Hquiet]); now intros ev (? & ? & _).
  - destruct (loop_accounting env (mkChatOpenAI "gpt-4o" 20 key) 0 lines
                (mkWorld [ReadFile "documents/transactions.csv";
                          EmbedDocuments texts; ConsoleLog banner] [store]))
      as (evs' & o' & Hloop' & Hmodel & Hembed & _).
    destruct (yields_unique _ _ _ _ _ _ Hloop' Hloop) as [-> ->].
    destruct (shell_loop_yields env (mkChatOpenAI "gpt-4o" 20 key) 0 lines
                (mkWorld [ReadFile "documents/transactions.csv";
                          EmbedDocuments texts; ConsoleLog banner] [store]))
      as (evs' & o' & Hloop'' & Hevs & _).
    destruct (yields_unique _ _ _ _ _ _ Hloop'' Hloop) as [-> ->].
    destruct (loop_events_counts evs Hevs) as [_ Hdocs].
    rewrite Hrun. cbn [fst trace].
    assert (Hclose : count is_model_call
                       match o with Resolved _ => [RlClose] | _ => [] end = 0
                     /\ count is_embed_query
                          match o with Resolved _ => [RlClose] | _ => [] end = 0
                     /\ count is_embed_documents
                          match o with Resolved _ => [RlClose] | _ => [] end = 0)
      by (destruct o; repeat split; reflexivity).
    destruct Hclose as (Hc1 & Hc2 & Hc3).
    rewrite !count_app, Hc1, Hc2, Hc3, Hdocs.
    change (count is_model_call [ReadFile "documents/transactions.csv";
                                 EmbedDocuments texts; ConsoleLog banner])
      with 0.
    change (count is_embed_query [ReadFile "documents/transactions.csv";
                                  EmbedDocuments texts; ConsoleLog banner])
      with 0.
    change (count is_embed_documents [ReadFile "documents/transactions.csv";
                                      EmbedDocuments texts; ConsoleLog banner])
      with 1.
    lia.
Qed.

Lemma formatMessages_prompt :
  exists system, forall input calls,
    formatMessages prompt input calls
    = SystemMessage system :: (calls ++ [UserMessage input])%list.
Proof.
  eexists. intros input calls. unfold formatMessages, prompt.
  cbn [flat_map app]. reflexivity.
Qed.

(** ** Turns, by what the model replies *)


Lemma run_retriever env m vectorStore argument w :
  run_tool (tools (make_executor env m vectorStore)) "TransactionRetriever"
    argument w
  = func (createTransactionRetrieverTool env vectorStore) argument w.
Proof. reflexivity. Qed.

Lemma invoke_tool_request env m vectorStore input argument w :
  chat_service env (length (trace w)) (formatMessages prompt input [])
  = Some (ToolRequest "TransactionRetriever" argument) ->
  invoke env (make_executor env m vectorStore) input w
  = match func (createTransactionRetrieverTool env vectorStore) argument
            (mkWorld (trace w ++ [ModelCall (formatMessages prompt input [])])
                     (heap w)) with
    | (w2, Resolved observation) =>
        iterate env (make_executor env m vectorStore) 9 input
          [ToolCallMessage "TransactionRetriever" argument observation] w2
    | (w2, Rejected e) =>
        iterate env (make_executor env m vectorStore) 9 input
          [ToolCallMessage "TransactionRetriever" argument ""] w2
    | (w2, Pending) => (w2, Pending)
    end.
Proof.
  intros Hreply. unfold invoke. cbn [maxIterations make_executor iterate].
  unfold bind at 1.
  pose proof (plan_yields env (agent (make_executor env m vectorStore))
                input [] w) as Hplan.
  cbn [agent make_executor createOpenAIFunctionsAgent agent_prompt] in Hplan.
  rewrite Hreply in Hplan. unfold yields in Hplan.
  cbn [agent make_executor createOpenAIFunctionsAgent].
  rewrite Hplan. unfold bind at 1.
  cbn [tools]. unfold observe. rewrite run_retriever.
  destruct (func (createTransactionRetrieverTool env vectorStore) argument _)
    as [w2 [observation | e |]]; reflexivity.
Qed.

Lemma iterate_answer env m vectorStore budget input scratchpad text w :
  chat_service env (length (trace w)) (formatMessages prompt input scratchpad)
  = Some (FinalAnswer text) ->
  yields (iterate env (make_executor env m vectorStore) (S budget) input
            scratchpad) w
    [ModelCall (formatMessages prompt input scratchpad)]
    (Resolved (mkResult text)).
Proof.
  intros Hreply. cbn [iterate].
  pose proof (plan_yields env (agent (make_executor env m vectorStore))
                input scratchpad w) as Hplan.
  cbn [agent make_executor createOpenAIFunctionsAgent agent_prompt] in Hplan.
  rewrite Hreply in Hplan.
  rewrite <- (app_nil_r [ModelCall (formatMessages prompt input scratchpad)]).
  eapply yields_bind; [exact Hplan | apply yields_ret].
Qed.

(** X7: a model that asks for the tool once and then answers.  The turn makes
    exactly one search, between two model calls, and the second call carries,
    as the observation of the tool call, the text the tool returned: the
    chunks found with k = 5 joined by the delimiter, each of them verbatim.
    The turn resolves to the model's final text. *)
Theorem retrieved_context_reaches_model
    env m vectorStore input argument text index q others w :
  chat_service env (length (trace w)) (formatMessages prompt input [])
  = Some (ToolRequest "TransactionRetriever" argument) ->
  embedding_service env (length (trace w) + 1) [argument] = Some (q :: others) ->
  nth_error (heap w) vectorStore = Some index ->
  let retrieved := map pageContent (map fst (query (similarity env) index q 5)) in
  let observation := join (LF ++ "---" ++ LF) retrieved in
  chat_service env (length (trace w) + 2)
    (formatMessages prompt input
       [ToolCallMessage "TransactionRetriever" argument observation])
  = Some (FinalAnswer text) ->
  yields (invoke env (make_executor env m vectorStore) input) w
    [ModelCall (formatMessages prompt input []);
     EmbedQuery argument;
     ModelCall (formatMessages prompt input
                  [ToolCallMessage "TransactionRetriever" argument observation])]
    (Resolved (mkResult text))
  /\ Forall (fun chunk => occurs_in chunk observation) retrieved.
Proof.
  intros Hask Hembed Hindex retrieved observation Hanswer. split.
  - unfold yields. rewrite (invoke_tool_request _ _ _ _ _ _ Hask).
    pose proof (tool_yields env vectorStore argument
                  (mkWorld (trace w ++ [ModelCall (formatMessages prompt input [])])
                           (heap w))) as Htool.
    cbn [trace heap] in Htool. rewrite length_app in Htool.
    cbn [length] in Htool. rewrite Hembed, Hindex in Htool.
    unfold yields in Htool. cbn [trace heap] in Htool. rewrite Htool.
    fold retrieved. fold observation.
    cbn [iterate]. unfold bind at 1.
    pose proof (plan_yields env (agent (make_executor env m vectorStore)) input
                  [ToolCallMessage "TransactionRetriever" argument observation]
                  (mkWorld ((trace w ++ [ModelCall (formatMessages prompt input [])])
                              ++ [EmbedQuery argument]) (heap w))) as Hplan.
    cbn [agent make_executor createOpenAIFunctionsAgent agent_prompt trace heap]
      in Hplan.
    rewrite !length_app in Hplan. cbn [length] in Hplan.
    replace (length (trace w) + 1 + 1) with (length (trace w) + 2) in Hplan by lia.
    rewrite Hanswer in Hplan. unfold yields in Hplan.
    cbn [trace heap] in Hplan.
    cbn [agent make_executor createOpenAIFunctionsAgent app].
    rewrite Hplan. unfold ret.
    repeat (rewrite <- app_assoc; cbn [app]). reflexivity.
  - apply Forall_forall. intros chunk Hchunk. now apply join_occurs.
Qed.

Lemma retrieved_context_reaches_model_witness :
  yields (invoke (Sample.env Sample.chat_once)
            (make_executor (Sample.env Sample.chat_once) Sample.llm 0)
            Sample.question)
    (Sample.ready Sample.chat_once)
    [ModelCall (formatMessages prompt Sample.question []);
     EmbedQuery "groceries";
     ModelCall (formatMessages prompt Sample.question
                  [ToolCallMessage "TransactionRetriever" "groceries"
                     Sample.csv])]
    (Resolved (mkResult "You spent 84.30 on groceries.")).
Proof.
  apply (proj1 (retrieved_context_reaches_model
                  (Sample.env Sample.chat_once) Sample.llm 0 Sample.question
                  "groceries" "You spent 84.30 on groceries."
                  [(mkDocument Sample.csv 0, [53%Z])] [9%Z] []
                  (Sample.ready Sample.chat_once)
                  eq_refl eq_refl eq_refl eq_refl)).
Defined.

(** X8: a search that fails.  The tool does not catch a failure of the
    embedding request: it rejects with that error.  The executor absorbs the
    rejection: the turn goes on, the tool call being recorded with an empty
    observation, and when the model then answers the turn resolves to that
    answer. *)
Theorem search_failure_absorbed env m vectorStore :
  (forall input w,
     embedding_service env (length (trace w)) [input] = None ->
     func (createTransactionRetrieverTool env vectorStore) input w
     = (mkWorld (trace w ++ [EmbedQuery input]) (heap w),
        Rejected EmbeddingServiceError))
  /\ (forall input argument text w,
        chat_service env (length (trace w)) (formatMessages prompt input [])
        = Some (ToolRequest "TransactionRetriever" argument) ->
        embedding_service env (length (trace w) + 1) [argument] = None ->
        chat_service env (length (trace w) + 2)
          (formatMessages prompt input
             [ToolCallMessage "TransactionRetriever" argument ""])
        = Some (FinalAnswer text) ->
        yields (invoke env (make_executor env m vectorStore) input) w
          [ModelCall (formatMessages prompt input []);
           EmbedQuery argument;
           ModelCall (formatMessages prompt input
                        [ToolCallMessage "TransactionRetriever" argument ""])]
          (Resolved (mkResult text))).
Proof.
  assert (Htool : forall input w,
             embedding_service env (length (trace w)) [input] = None ->
             func (createTransactionRetrieverTool env vectorStore) input w
             = (mkWorld (trace w ++ [EmbedQuery input]) (heap w),
                Rejected EmbeddingServiceError)).
  { intros input w Hdown.
    pose proof (tool_yields env vectorStore input w) as Hyields.
    now rewrite Hdown in Hyields. }
  split; [exact Htool|].
  intros input argument text w Hask Hdown Hanswer.
  unfold yields. rewrite (invoke_tool_request _ _ _ _ _ _ Hask).
  rewrite Htool
    by (cbn [trace]; rewrite length_app; exact Hdown).
  pose proof (iterate_answer env m vectorStore 8 input
                [ToolCallMessage "TransactionRetriever" argument ""] text
                (mkWorld ((trace w ++ [ModelCall (formatMessages prompt input [])])
                            ++ [EmbedQuery argument]) (heap w))) as Hlast.
  cbn [trace heap] in Hlast. rewrite !length_app in Hlast.
  cbn [length] in Hlast.
  replace (length (trace w) + 1 + 1) with (length (trace w) + 2) in Hlast by lia.
  specialize (Hlast Hanswer). unfold yields in Hlast. cbn [trace heap] in Hlast.
  cbn [trace heap]. rewrite Hlast.
  repeat (rewrite <- app_assoc; cbn [app]). reflexivity.
Qed.

Lemma search_failure_absorbed_witness :
  yields (invoke Scenario.env_search_down_once
            (make_executor Scenario.env_search_down_once Sample.llm 0)
            Sample.question)
    (Scenario.ready Scenario.env_search_down_once)
    [ModelCall (formatMessages prompt Sample.question []);
     EmbedQuery "groceries";
     ModelCall (formatMessages prompt Sample.question
                  [ToolCallMessage "TransactionRetriever" "groceries" ""])]
    (Resolved (mkResult "You spent 84.30 on groceries."))
  /\ func (createTransactionRetrieverTool Scenario.env_search_down_once 0)
       "rent" (Scenario.ready Scenario.env_search_down_once)
     = (mkWorld (trace (Scenario.ready Scenario.env_search_down_once)
                   ++ [EmbedQuery "rent"])
                (heap (Scenario.ready Scenario.env_search_down_once)),
        Rejected EmbeddingServiceError).
Proof.
  split.
  - apply (proj2 (search_failure_absorbed Scenario.env_search_down_once
                    Sample.llm 0)
             Sample.question "groceries" "You spent 84.30 on groceries."
             (Scenario.ready Scenario.env_search_down_once)); reflexivity.
  - apply (proj1 (search_failure_absorbed Scenario.env_search_down_once
                    Sample.llm 0)
             "rent" (Scenario.ready Scenario.env_search_down_once)).
    reflexivity.
Defined.

Example search_down_run :
  snd (run Scenario.env_search_down [Sample.question; "exit"]) = Resolved tt
  /\ count is_model_call
       (trace (fst (run Scenario.env_search_down [Sample.question; "exit"])))
     = 10
  /\ In (ConsoleLog (stopped_output ++ LF))
        (trace (fst (run Scenario.env_search_down [Sample.question; "exit"]))).
Proof. vm_compute. repeat split. intuition. Qed.

(** ** What the tool can return *)

Lemma query_from_index (sim : Vec -> Vec -> Z) (index : MemoryVectorStore)
    (q : Vec) (k : nat) d :
  In d (map fst (query sim index q k)) -> In d (map fst index).
Proof.
  unfold query. intros Hin. apply in_map_iff in Hin.
  destruct Hin as ([d' s] & <- & Hin). cbn [fst].
  assert (Hscored : In (d', s)
                      (map (fun entry => (fst entry, sim q (snd entry))) index)).
  { eapply Permutation_in; [apply rank_perm|].
    rewrite <- (firstn_skipn k (rank _)). apply in_or_app. now left. }
  apply in_map_iff in Hscored. destruct Hscored as ([d'' v] & Heq & Hentry).
  cbn in Heq. injection Heq as -> _.
  apply in_map_iff. now exists (d', v).
Qed.

Lemma query_all (sim : Vec -> Vec -> Z) (index : MemoryVectorStore)
    (q : Vec) (k : nat) :
  length index <= k ->
  Permutation (map fst (query sim index q k)) (map fst index).
Proof.
  intros Hk. unfold query.
  rewrite firstn_all2
    by (rewrite (Permutation_length (rank_perm _)), length_map; exact Hk).
  rewrite (Permutation_map fst (rank_perm _)), map_map. cbn [fst].
  reflexivity.
Qed.

(** X9: a store of at most five chunks is returned whole.  Whatever the query,
    the tool then resolves to the texts of all the chunks of the store, in
    some order, joined by the delimiter: the empty string for an empty
    store, and the text of the chunk, with no delimiter, for a store of
    one. *)
Theorem small_store_returned_whole env vectorStore input w index q others :
  embedding_service env (length (trace w)) [input] = Some (q :: others) ->
  nth_error (heap w) vectorStore = Some index ->
  length index <= 5 ->
  (exists texts,
     snd (func (createTransactionRetrieverTool env vectorStore) input w)
     = Resolved (join (LF ++ "---" ++ LF) texts)
     /\ Permutation texts (map pageContent (map fst index)))
  /\ (index = [] ->
      snd (func (createTransactionRetrieverTool env vectorStore) input w)
      = Resolved "")
  /\ (forall d v,
        index = [(d, v)] ->
        snd (func (createTransactionRetrieverTool env vectorStore) input w)
        = Resolved (pageContent d)).
Proof.
  intros Hembed Hindex Hsmall.
  destruct (yields_produced _ _ _ _ (tool_yields env vectorStore input w))
    as (_ & _ & Hout).
  rewrite Hembed, Hindex in Hout. rewrite Hout.
  split; [|split].
  - eexists. split; [reflexivity|].
    apply Permutation_map. now apply query_all.
  - now intros ->.
  - now intros d v ->.
Qed.

Lemma small_store_returned_whole_witness :
  snd (func (createTransactionRetrieverTool (Sample.env Sample.chat_once) 0)
         "rent" (Sample.ready Sample.chat_once))
  = Resolved Sample.csv.
Proof.
  exact (proj2 (proj2 (small_store_returned_whole
                         (Sample.env Sample.chat_once) 0 "rent"
                         (Sample.ready Sample.chat_once)
                         [(mkDocument Sample.csv 0, [53%Z])] [4%Z] []
                         eq_refl eq_refl (le_S _ _ (le_S _ _ (le_S _ _
                           (le_S _ _ (le_n 1)))))))
           (mkDocument Sample.csv 0) [53%Z] eq_refl).
Defined.

Section WindowsInfix.
Context {A : Type}.
Variables (size overlap : nat).

Lemma windows_infix (fuel : nat) (text : list A) :
  Forall (fun chunk => exists before after,
                         text = (before ++ chunk ++ after)%list)
         (Splitter.windows size overlap fuel text).
Proof.
  revert text. induction fuel as [|fuel IH]; intros text;
    cbn [Splitter.windows]; [constructor|].
  destruct (length text <=? size).
  - repeat constructor. exists [], []. now rewrite app_nil_r.
  - constructor.
    + exists [], (skipn size text). cbn [app]. now rewrite firstn_skipn.
    + eapply Forall_impl; [|apply IH].
      intros chunk (before & after & Heq).
      exists (firstn (size - overlap) text ++ before)%list, after.
      rewrite <- app_assoc, <- Heq. now rewrite firstn_skipn.
Qed.
End WindowsInfix.

Lemma string_of_list_ascii_app (a b : list ascii) :
  string_of_list_ascii (a ++ b)
  = (string_of_list_ascii a ++ string_of_list_ascii b)%string.
Proof. induction a as [|c a IH]; cbn; [reflexivity | now rewrite IH]. Qed.

Lemma splitText_infix cfg text chunks :
  Splitter.splitText cfg text = inr chunks ->
  Forall (fun chunk => occurs_in chunk text) chunks.
Proof.
  unfold Splitter.splitText.
  destruct (Splitter.chunkSize cfg <=? Splitter.chunkOverlap cfg);
    [discriminate|].
  destruct (list_ascii_of_string text) as [|c chars] eqn:Hchars;
    intros Hsplit; injection Hsplit as <-; [constructor|].
  apply Forall_map.
  eapply Forall_impl;
    [|exact (windows_infix (Splitter.chunkSize cfg) (Splitter.chunkOverlap cfg)
               (length (c :: chars)) (c :: chars))].
  intros chunk (before & after & Heq).
  exists (string_of_list_ascii before), (string_of_list_ascii after).
  rewrite <- !string_of_list_ascii_app, <- Heq, <- Hchars.
  symmetry. apply string_of_list_ascii_of_string.
Qed.

(** X10: the tool returns nothing but text of the transactions file.  After a
    successful startup on a file of content [content], every chunk of the
    store occurs verbatim in [content]; and at any later point of the run,
    the store being what it was, an answered search resolves to at most five
    texts joined by the delimiter, each of which occurs verbatim in
    [content]. *)
Theorem retrieved_text_is_file_text env content w0 executor :
  files env "documents/transactions.csv" = Some content ->
  boot env = (w0, Resolved executor) ->
  exists store,
    heap w0 = [store]
    /\ Forall (fun entry => occurs_in (pageContent (fst entry)) content) store
    /\ forall input w q others,
         heap w = heap w0 ->
         embedding_service env (length (trace w)) [input] = Some (q :: others) ->
         exists texts,
           snd (func (createTransactionRetrieverTool env 0) input w)
           = Resolved (join (LF ++ "---" ++ LF) texts)
           /\ length texts <= 5
           /\ Forall (fun text => occurs_in text content) texts.
Proof.
  intros Hfile Hboot. rewrite boot_unfold, Hfile in Hboot.
  destruct (OPENAI_API_KEY env) as [key|]; [|discriminate Hboot].
  destruct (Splitter.createDocuments (Splitter.mkConfig 1000 100) content)
    as [e | documents] eqn:Hdocs; [discriminate Hboot|].
  destruct (embedding_service env 1 (map pageContent documents))
    as [vectors|]; [|discriminate Hboot].
  injection Hboot as <- _.
  assert (Hchunks : Forall (fun d => occurs_in (pageContent d) content) documents).
  { unfold Splitter.createDocuments in Hdocs.
    destruct (Splitter.splitText (Splitter.mkConfig 1000 100) content)
      as [e | chunks] eqn:Hsplit; [discriminate Hdocs|].
    injection Hdocs as <-. apply splitText_infix in Hsplit.
    rewrite <- (pageContent_number 0 chunks) in Hsplit.
    exact (proj1 (Forall_map pageContent
                    (fun chunk => occurs_in chunk content) _) Hsplit). }
  assert (Hstore : Forall (fun entry => occurs_in (pageContent (fst entry)) content)
                     (combine documents vectors)).
  { apply Forall_forall. intros [d v] Hin. cbn [fst].
    apply in_combine_l in Hin. rewrite Forall_forall in Hchunks.
    now apply Hchunks. }
  exists (combine documents vectors). cbn [heap].
  split; [reflexivity|]. split; [exact Hstore|].
  intros input w q others Hheap Hembed.
  destruct (yields_produced _ _ _ _ (tool_yields env 0 input w))
    as (_ & _ & Hout).
  rewrite Hembed, Hheap in Hout. cbn [nth_error] in Hout.
  eexists. split; [exact Hout|]. split.
  - rewrite !length_map. apply query_length_le.
  - apply Forall_forall. intros text Htext.
    apply in_map_iff in Htext. destruct Htext as (d & <- & Hd).
    apply query_from_index in Hd. apply in_map_iff in Hd.
    destruct Hd as (entry & <- & Hentry).
    rewrite Forall_forall in Hstore. now apply Hstore.
Qed.

Lemma retrieved_text_is_file_text_witness :
  exists store,
    heap (mkWorld [ReadFile "documents/transactions.csv";
                   EmbedDocuments [Sample.csv]]
                  [[(mkDocument Sample.csv 0, [53%Z])]])
    = [store]
    /\ Forall (fun entry => occurs_in (pageContent (fst entry)) Sample.csv) store
    /\ forall input w q others,
         heap w = heap (mkWorld [ReadFile "documents/transactions.csv";
                                 EmbedDocuments [Sample.csv]]
                                [[(mkDocument Sample.csv 0, [53%Z])]]) ->
         embedding_service (Sample.env Sample.chat_once) (length (trace w)) [input]
         = Some (q :: others) ->
         exists texts,
           snd (func (createTransactionRetrieverTool
                        (Sample.env Sample.chat_once) 0) input w)
           = Resolved (join (LF ++ "---" ++ LF) texts)
           /\ length texts <= 5
           /\ Forall (fun text => occurs_in text Sample.csv) texts.
Proof.
  apply (retrieved_text_is_file_text (Sample.env Sample.chat_once) Sample.csv
           (mkWorld [ReadFile "documents/transactions.csv";
                     EmbedDocuments [Sample.csv]]
                    [[(mkDocument Sample.csv 0, [53%Z])]])
           (make_executor (Sample.env Sample.chat_once) Sample.llm 0)
           eq_refl eq_refl).
Defined.

(** ** What has happened does not depend on what is typed later *)

Lemma loop_asks_first env m vectorStore lines w :
  exists evs o,
    yields (shell_loop env (make_executor env m vectorStore) lines) w
      (Question "You: " :: evs) o.
Proof.
  destruct (shell_loop_yields env m vectorStore lines w)
    as (evs & o & Hrun & _ & _ & _ & Hfirst).
  destruct lines as [|line rest].
  - eexists _, _. apply shell_loop_eof.
  - destruct (is_exit line) eqn:Hexit.
    + eexists _, _. unfold yields. now apply shell_loop_exit.
    + destruct (Hfirst line rest eq_refl Hexit) as [later ->].
      eexists _, _. exact Hrun.
Qed.

Lemma loop_online env m vectorStore before more w :
  exists evs o,
    yields (shell_loop env (make_executor env m vectorStore) before) w evs o
    /\ (o <> Pending ->
        shell_loop env (make_executor env m vectorStore) (before ++ more) w
        = shell_loop env (make_executor env m vectorStore) before w)
    /\ (o = Pending ->
        exists evs' o',
          yields (shell_loop env (make_executor env m vectorStore)
                    (before ++ more))
            w (evs ++ evs') o').
Proof.
  revert w. induction before as [|line before IH]; intros w; cbn [app].
  - exists [Question "You: "], Pending.
    split; [apply shell_loop_eof|]. split; [intros Hne; now contradiction Hne|].
    intros _. destruct (loop_asks_first env m vectorStore more w)
      as (evs' & o' & Hmore).
    now exists evs', o'.
  - destruct (is_exit line) eqn:Hexit.
    + exists [Question "You: "; ConsoleLog "👋 Goodbye!"], (Resolved tt).
      split; [now apply shell_loop_exit|].
      split; [|discriminate]. intros _.
      now rewrite !(shell_loop_exit _ _ _ _ _ Hexit).
    + unfold yields. rewrite !(shell_loop_step _ _ _ _ _ Hexit).
      set (w1 := mkWorld (trace w ++ [Question "You: "]) (heap w)).
      destruct (invoke_yields env m vectorStore line w1)
        as (evs1 & o1 & Hturn & _ & _ & Hsettled).
      unfold yields in Hturn. rewrite Hturn.
      destruct o1 as [result | e |]; [| |now contradiction Hsettled].
      * match goal with
        | |- context [shell_loop _ _ before ?w2] =>
            destruct (IH w2) as (evs & o & Hrest & Hsame & Hmore)
        end.
        unfold yields in Hrest. rewrite Hrest. cbn [trace heap].
        cbn [trace heap] in Hrest, Hsame.
        exists ([Question "You: "]
                  ++ (ModelCall (formatMessages prompt line []) :: evs1)
                  ++ [ConsoleLog (LF ++ "💸 Spending Summary 💸" ++ LF);
                      ConsoleLog (output result ++ LF)] ++ evs)%list, o.
        split.
        { f_equal. f_equal. unfold w1. cbn [trace].
          repeat (rewrite <- app_assoc; cbn [app]). reflexivity. }
        split.
        { intros Ho. rewrite (Hsame Ho). exact Hrest. }
        { intros Ho. destruct (Hmore Ho) as (evs' & o' & Hlong).
          exists evs', o'. unfold yields in Hlong.
          cbn [trace heap] in Hlong. rewrite Hlong.
          f_equal. f_equal. unfold w1. cbn [trace].
          repeat (rewrite <- app_assoc; cbn [app]). reflexivity. }
      * exists ([Question "You: "]
                  ++ ModelCall (formatMessages prompt line []) :: evs1)%list,
               (Rejected e).
        split.
        { f_equal. f_equal. unfold w1. cbn [trace].
          now rewrite <- app_assoc. }
        split; [reflexivity | discriminate].
Qed.

(** X11: the process works line by line.  If, given the lines [before] and
    then the end of the input, the run ends otherwise than waiting at the
    prompt (by the exit keyword, by a failure), then lines added after them
    change nothing at all.  If it ends waiting at the prompt, then with more
    lines added everything it did is done again, in the same order, before
    anything else, and the store is the same. *)
Theorem run_is_incremental env before more :
  (snd (run env before) <> Pending ->
   run env (before ++ more) = run env before)
  /\ (snd (run env before) = Pending ->
      exists evs,
        trace (fst (run env (before ++ more)))
        = (trace (fst (run env before)) ++ evs)%list
        /\ heap (fst (run env (before ++ more))) = heap (fst (run env before))).
Proof.
  destruct (boot_cases env)
    as [(key & documents & vectors & _ & _ & Hboot) | (evs & e & Hboot & _)].
  - rewrite !(run_started _ _ _ _ Hboot). cbn [trace heap app].
    destruct (loop_online env (mkChatOpenAI "gpt-4o" 20 key) 0 before more
                (mkWorld [ReadFile "documents/transactions.csv";
                          EmbedDocuments (map pageContent documents);
                          ConsoleLog banner] [combine documents vectors]))
      as (evs & o & Hrun & Hsame & Hmore).
    unfold yields in Hrun. rewrite Hrun. split.
    + intros Ho. rewrite Hsame, Hrun; [reflexivity|].
      intros ->. now contradiction Ho.
    + intros Ho. destruct o as [[] | e |]; try discriminate Ho.
      destruct (Hmore eq_refl) as (evs' & o' & Hlong).
      unfold yields in Hlong. rewrite Hlong. cbn [trace heap fst].
      destruct o' as [[] | e |]; cbn [fst trace heap].
      * exists (evs' ++ [RlClose])%list. split; [|reflexivity].
        repeat (rewrite <- app_assoc; cbn [app]). reflexivity.
      * exists evs'. split; [|reflexivity].
        repeat (rewrite <- app_assoc; cbn [app]). reflexivity.
      * exists evs'. split; [|reflexivity].
        repeat (rewrite <- app_assoc; cbn [app]). reflexivity.
  - rewrite !(run_failed _ _ _ _ Hboot). split; [reflexivity | discriminate].
Qed.

Lemma run_is_incremental_witness :
  run (Sample.env Sample.chat_down) ([Sample.question] ++ ["exit"])
  = run (Sample.env Sample.chat_down) [Sample.question]
  /\ exists evs,
       trace (fst (run (Sample.env Sample.chat_once)
                     ([Sample.question] ++ ["What about rent?"; "exit"])))
       = (trace (fst (run (Sample.env Sample.chat_once) [Sample.question]))
            ++ evs)%list
       /\ heap (fst (run (Sample.env Sample.chat_once)
                       ([Sample.question] ++ ["What about rent?"; "exit"])))
          = heap (fst (run (Sample.env Sample.chat_once) [Sample.question])).
Proof.
  split.
  - apply (proj1 (run_is_incremental (Sample.env Sample.chat_down)
                    [Sample.question] ["exit"])).
    vm_compute. discriminate.
  - apply (proj2 (run_is_incremental (Sample.env Sample.chat_once)
                    [Sample.question] ["What about rent?"; "exit"])).
    vm_compute. reflexivity.
Defined.

(* ================================================================== *)
(** * Failures during a turn *)

Lemma closed_more ending (before : list string) line rest :
  closed ending (before ++ line :: rest) = false.
Proof. now destruct ending, before. Qed.

Lemma shell_loop_on_closed env executor ending lines w :
  closed ending lines = true ->
  shell_loop_on env executor ending lines w = (w, Rejected UseAfterClose).
Proof. intros Hclosed. destruct lines; cbn [shell_loop_on]; now rewrite Hclosed. Qed.

Lemma shell_loop_on_step env executor ending line rest w :
  is_exit line = false ->
  shell_loop_on env executor ending (line :: rest) w
  = match invoke env executor line
            (mkWorld (trace w ++ [Question "You: "]) (heap w)) with
    | (w2, Resolved result) =>
        shell_loop_on env executor ending rest
          (mkWorld (trace w2
                      ++ [ConsoleLog (LF ++ "💸 Spending Summary 💸" ++ LF);
                          ConsoleLog (output result ++ LF)])
                   (heap w2))
    | (w2, Rejected e) => (w2, Rejected e)
    | (w2, Pending) => (w2, Pending)
    end.
Proof.
  intros Hforward. cbn [shell_loop_on].
  replace (closed ending (line :: rest)) with false by now destruct ending.
  rewrite Hforward. unfold bind, emit, throw. cbn [trace heap].
  destruct (invoke env executor line _) as [w2 [result | e |]];
    try reflexivity.
  rewrite <- app_assoc. reflexivity.
Qed.





(* ================================================================== *)
(** * Exit status, however the input arrives *)

Lemma session_boot env stdin :
  session env stdin
  = match boot env with
    | (w0, Resolved executor) =>
        (emit (ConsoleLog banner);;
         shell_loop_on env executor (ending stdin) (delivered (arrivals stdin));;
         emit RlClose) w0
    | (w0, Rejected e) => (w0, Rejected e)
    | (w0, Pending) => (w0, Pending)
    end.
Proof.
  unfold session, program, boot, main, bind.
  destruct (model env initial_world) as [w [m | e |]]; reflexivity.
Qed.

Lemma session_started env stdin w0 executor :
  boot env = (w0, Resolved executor) ->
  session env stdin
  = match shell_loop_on env executor (ending stdin) (delivered (arrivals stdin))
            (mkWorld (trace w0 ++ [ConsoleLog banner]) (heap w0)) with
    | (w', Resolved _) => (mkWorld (trace w' ++ [RlClose]) (heap w'), Resolved tt)
    | (w', Rejected e) => (w', Rejected e)
    | (w', Pending) => (w', Pending)
    end.
Proof.
  intros Hboot. rewrite session_boot, Hboot. unfold bind, emit. cbn [trace heap].
  destruct (shell_loop_on env executor _ _ _) as [w' [[] | e |]]; reflexivity.
Qed.


Section AnsweringModel.
Variables (env : Env) (m : ChatOpenAI) (vectorStore : VectorStoreRef).
Variable ending : InputEnd.
Hypothesis model_answers : forall t messages, chat_service env t messages <> None.





End AnsweringModel.

Lemma boot_started env w0 executor :
  boot env = (w0, Resolved executor) ->
  count is_question (trace w0) = 0
  /\ ~ In RlClose (trace w0)
  /\ exists m vectorStore, executor = make_executor env m vectorStore.
Proof.
  intros Hboot.
  destruct (boot_cases env)
    as [(key & documents & vectors & _ & _ & Hok) | (evs & e & Hfailed & _)].
  - rewrite Hboot in Hok. injection Hok as -> ->.
    split; [reflexivity|]. split; [|now eexists _, _].
    cbn. intuition discriminate.
  - rewrite Hboot in Hfailed. discriminate Hfailed.
Qed.


Example piped_run :
  snd (session Scenario.env_direct (piped ["hello"; "exit"]))
  = Rejected UseAfterClose
  /\ count is_question
       (trace (fst (session Scenario.env_direct (piped ["hello"; "exit"])))) = 1
  /\ snd (session Scenario.env_direct (piped [])) = Rejected UseAfterClose
  /\ snd (session Scenario.env_direct (typed ["hello"; "exit"])) = Resolved tt.
Proof. vm_compute. repeat split. Qed.



(* ================================================================== *)
(** * A model that answers at once *)

Lemma shell_loop_on_exit env executor ending line rest w :
  is_exit line = true ->
  shell_loop_on env executor ending (line :: rest) w
  = (mkWorld (trace w ++ [Question "You: "; ConsoleLog "👋 Goodbye!"]) (heap w),
     Resolved tt).
Proof.
  intros Hexit. cbn [shell_loop_on].
  replace (closed ending (line :: rest)) with false by now destruct ending.
  rewrite Hexit. unfold bind, emit. cbn [trace heap]. now rewrite <- app_assoc.
Qed.

Lemma shell_loop_on_eof env executor ending w :
  closed ending [] = false ->
  shell_loop_on env executor ending [] w
  = (mkWorld (trace w ++ [Question "You: "]) (heap w), Pending).
Proof. intros Hopen. cbn [shell_loop_on]. now rewrite Hopen. Qed.


Section DirectModel.
Variables (env : Env) (m : ChatOpenAI) (vectorStore : VectorStoreRef).
Variable ending : InputEnd.
Hypothesis model_answers :
  forall t messages, exists text,
    chat_service env t messages = Some (FinalAnswer text).

End DirectModel.



(* ================================================================== *)
(** * Turns share no conversation *)

Lemma turn_trace_settled env input budget t scratchpad evs o :
  turn_trace env input budget t scratchpad evs o -> o <> Pending.
Proof. induction 1; try discriminate; assumption. Qed.

Lemma iterate_trace env m vectorStore budget input scratchpad w :
  exists evs o,
    yields (iterate env (make_executor env m vectorStore) budget input scratchpad)
      w evs o
    /\ turn_trace env input budget (length (trace w)) scratchpad evs o.
Proof.
  revert scratchpad w. induction budget as [|budget IH]; intros scratchpad w.
  - exists [], (Resolved (mkResult stopped_output)).
    split; [apply yields_ret | constructor].
  - cbn [iterate].
    pose proof (plan_yields env (agent (make_executor env m vectorStore))
                  input scratchpad w) as Hplan.
    cbn [agent make_executor createOpenAIFunctionsAgent agent_prompt] in Hplan.
    set (first := formatMessages prompt input scratchpad) in *.
    set (w1 := mkWorld (trace w ++ [ModelCall first]) (heap w)).
    destruct (chat_service env (length (trace w)) first)
      as [[text | tool argument]|] eqn:Hreply.
    + exists [ModelCall first], (Resolved (mkResult text)).
      split; [|now constructor].
      rewrite <- (app_nil_r [ModelCall first]).
      eapply yields_bind; [exact Hplan | apply yields_ret].
    + destruct (run_tool_yields env m vectorStore tool argument w1)
        as (evs2 & observation & Htool & Hevs2).
      destruct (IH (scratchpad ++ [ToolCallMessage tool argument observation])%list
                  (mkWorld (trace w1 ++ evs2) (heap w1)))
        as (evs3 & o3 & Hrest & Hshape).
      exists ([ModelCall first] ++ evs2 ++ evs3)%list, o3.
      split.
      { eapply yields_bind; [exact Hplan|].
        eapply yields_bind; [exact Htool | exact Hrest]. }
      cbn [app]. eapply turn_observed; [exact Hreply | exact Hevs2 |].
      replace (length (trace w) + 1 + length evs2)
        with (length (trace (mkWorld (trace w1 ++ evs2) (heap w1))));
        [exact Hshape|].
      unfold w1. cbn [trace]. rewrite !length_app. reflexivity.
    + exists [ModelCall first], (Rejected ModelServiceError).
      split; [apply yields_bind_rejected; exact Hplan | now constructor].
Qed.

Lemma loop_trace_of env m vectorStore ending lines w :
  exists evs o,
    yields (shell_loop_on env (make_executor env m vectorStore) ending lines)
      w evs o
    /\ loop_trace env ending (length (trace w)) lines evs o.
Proof.
  revert w. induction lines as [|line rest IH]; intros w.
  - destruct ending eqn:Hend.
    + exists [Question "You: "], Pending.
      split; [now apply shell_loop_on_eof | now constructor].
    + exists [], (Rejected UseAfterClose). split; [|now constructor].
      unfold yields. rewrite shell_loop_on_closed by reflexivity.
      now rewrite app_nil_r, world_eta.
  - destruct (is_exit line) eqn:Hexit.
    + exists [Question "You: "; ConsoleLog "👋 Goodbye!"], (Resolved tt).
      split; [now apply shell_loop_on_exit | now constructor].
    + set (w1 := mkWorld (trace w ++ [Question "You: "]) (heap w)).
      destruct (iterate_trace env m vectorStore 10 line [] w1)
        as (turn & o & Hrun & Hshape).
      change (iterate env (make_executor env m vectorStore) 10 line [])
        with (invoke env (make_executor env m vectorStore) line) in Hrun.
      replace (length (trace w1)) with (length (trace w) + 1) in Hshape
        by (unfold w1; cbn [trace]; now rewrite length_app).
      pose proof (shell_loop_on_step env (make_executor env m vectorStore)
                    ending line rest w Hexit) as Hstep.
      fold w1 in Hstep. unfold yields in Hrun. rewrite Hrun in Hstep.
      destruct o as [result | e |].
      * match type of Hstep with
        | _ = shell_loop_on _ _ _ _ ?w2 =>
            destruct (IH w2) as (later & o & Hrest & Hloop)
        end.
        unfold yields in Hrest. rewrite Hrest in Hstep.
        exists (Question "You: "
                  :: turn
                  ++ [ConsoleLog (LF ++ "💸 Spending Summary 💸" ++ LF);
                      ConsoleLog (output result ++ LF)]
                  ++ later)%list, o.
        split.
        { unfold yields. rewrite Hstep. unfold w1. cbn [trace heap].
          repeat (rewrite <- app_assoc; cbn [app]). reflexivity. }
        eapply loop_answers; [exact Hexit | exact Hshape |].
        replace (length (trace w) + 1 + length turn + 2)
          with (length
                  (trace
                     (mkWorld
                        (trace (mkWorld (trace w1 ++ turn) (heap w1))
                           ++ [ConsoleLog (LF ++ "💸 Spending Summary 💸" ++ LF);
                               ConsoleLog (output result ++ LF)])
                        (heap (mkWorld (trace w1 ++ turn) (heap w1))))));
          [exact Hloop|].
        unfold w1. cbn [trace]. rewrite !length_app. reflexivity.
      * exists (Question "You: " :: turn)%list, (Rejected e).
        split; [|now apply loop_fails].
        unfold yields. rewrite Hstep. unfold w1. cbn [trace heap].
        now rewrite <- app_assoc.
      * now contradiction (turn_trace_settled _ _ _ _ _ _ _ Hshape).
Qed.

Section StatelessServices.
Variables (env : Env) (m : ChatOpenAI) (vectorStore : VectorStoreRef).
Hypothesis chat_stateless :
  forall t t' messages, chat_service env t messages = chat_service env t' messages.
Hypothesis embedding_stateless :
  forall t t' texts,
    embedding_service env t texts = embedding_service env t' texts.

Lemma observe_alike tool argument w w' :
  heap w = heap w' ->
  exists evs observation,
    yields (observe (run_tool (tools (make_executor env m vectorStore))
                       tool argument))
      w evs (Resolved observation)
    /\ yields (observe (run_tool (tools (make_executor env m vectorStore))
                          tool argument))
         w' evs (Resolved observation).
Proof.
  intros Hheap. unfold observe, run_tool, yields.
  cbn [tools make_executor find name createTransactionRetrieverTool].
  destruct (String.eqb _ _).
  - pose proof (tool_yields env vectorStore argument w) as Htool.
    pose proof (tool_yields env vectorStore argument w') as Htool'.
    rewrite (embedding_stateless (length (trace w')) (length (trace w)))
      in Htool'.
    rewrite <- Hheap in Htool'.
    unfold yields in Htool, Htool'. rewrite Htool, Htool'.
    destruct (embedding_service env (length (trace w)) [argument])
      as [[|q others]|];
      try destruct (nth_error (heap w) vectorStore);
      eexists _, _; split; reflexivity.
  - unfold ret. exists [], (tool ++ " is not a valid tool, try another one.")%string.
    rewrite !app_nil_r, !world_eta. split; reflexivity.
Qed.

Lemma iterate_alike budget input scratchpad w w' :
  heap w = heap w' ->
  exists evs o,
    yields (iterate env (make_executor env m vectorStore) budget input scratchpad)
      w evs o
    /\ yields (iterate env (make_executor env m vectorStore) budget input
                 scratchpad)
         w' evs o.
Proof.
  revert scratchpad w w'.
  induction budget as [|budget IH]; intros scratchpad w w' Hheap.
  - exists [], (Resolved (mkResult stopped_output)).
    split; apply yields_ret.
  - cbn [iterate].
    pose proof (plan_yields env (agent (make_executor env m vectorStore))
                  input scratchpad w) as Hplan.
    pose proof (plan_yields env (agent (make_executor env m vectorStore))
                  input scratchpad w') as Hplan'.
    rewrite (chat_stateless (length (trace w')) (length (trace w))) in Hplan'.
    cbn [agent make_executor createOpenAIFunctionsAgent agent_prompt]
      in Hplan, Hplan'.
    set (first := formatMessages prompt input scratchpad) in *.
    destruct (chat_service env (length (trace w)) first)
      as [[text | tool argument]|].
    + exists [ModelCall first], (Resolved (mkResult text)).
      rewrite <- (app_nil_r [ModelCall first]).
      split; (eapply yields_bind; [eassumption | apply yields_ret]).
    + destruct (observe_alike tool argument
                  (mkWorld (trace w ++ [ModelCall first]) (heap w))
                  (mkWorld (trace w' ++ [ModelCall first]) (heap w')) Hheap)
        as (evs2 & observation & Htool & Htool').
      destruct (IH (scratchpad ++ [ToolCallMessage tool argument observation])%list
                  (mkWorld
                     (trace (mkWorld (trace w ++ [ModelCall first]) (heap w))
                        ++ evs2)
                     (heap (mkWorld (trace w ++ [ModelCall first]) (heap w))))
                  (mkWorld
                     (trace (mkWorld (trace w' ++ [ModelCall first]) (heap w'))
                        ++ evs2)
                     (heap (mkWorld (trace w' ++ [ModelCall first]) (heap w'))))
                  Hheap)
        as (evs3 & o3 & Hrest & Hrest').
      exists ([ModelCall first] ++ evs2 ++ evs3)%list, o3.
      split.
      * eapply yields_bind; [exact Hplan|].
        eapply yields_bind; [exact Htool | exact Hrest].
      * eapply yields_bind; [exact Hplan'|].
        eapply yields_bind; [exact Htool' | exact Hrest'].
    + exists [ModelCall first], (Rejected ModelServiceError).
      split; apply yields_bind_rejected; assumption.
Qed.

End StatelessServices.

(** X5: no conversation is carried from one turn to the next.  Whatever was
    asked and answered before, a turn begins with an empty scratchpad and ten
    iterations allowed: the messages of each call to the model are the system
    text, then the tool calls that the model itself requested earlier in this
    same turn, in the order of its requests, then the line of this turn as
    the one user message; each request is followed by at most one search, for
    the argument requested.  This holds of every turn of the loop and of the
    process.  When moreover the services answer alike at all times, a turn
    on a given line does and returns the same from any two states with the
    same store. *)
Theorem turns_share_no_conversation env :
  (exists system, forall input calls,
      formatMessages prompt input calls
      = SystemMessage system :: (calls ++ [UserMessage input])%list)
  /\ (forall m vectorStore input w,
        exists evs o,
          yields (invoke env (make_executor env m vectorStore) input) w evs o
          /\ turn_trace env input 10 (length (trace w)) [] evs o)
  /\ (forall m vectorStore ending lines w,
        exists evs o,
          yields (shell_loop_on env (make_executor env m vectorStore) ending
                    lines) w evs o
          /\ loop_trace env ending (length (trace w)) lines evs o)
  /\ (forall stdin w0 executor,
        boot env = (w0, Resolved executor) ->
        exists evs o,
          trace (fst (session env stdin))
          = (trace w0
               ++ ConsoleLog banner
               :: evs ++ match o with Resolved _ => [RlClose] | _ => [] end)%list
          /\ loop_trace env (ending stdin) (S (length (trace w0)))
               (delivered (arrivals stdin)) evs o)
  /\ ((forall t t' messages,
         chat_service env t messages = chat_service env t' messages) ->
      (forall t t' texts,
         embedding_service env t texts = embedding_service env t' texts) ->
      forall m vectorStore input w w',
        heap w = heap w' ->
        produced (invoke env (make_executor env m vectorStore) input) w
        = produced (invoke env (make_executor env m vectorStore) input) w'
        /\ snd (invoke env (make_executor env m vectorStore) input w)
           = snd (invoke env (make_executor env m vectorStore) input w')).
Proof.
  split; [exact formatMessages_prompt|].
  split; [intros; apply iterate_trace|].
  split; [intros; apply loop_trace_of|].
  split.
  - intros stdin w0 executor Hboot.
    destruct (boot_started _ _ _ Hboot) as (_ & _ & m & vectorStore & ->).
    rewrite (session_started _ _ _ _ Hboot).
    destruct (loop_trace_of env m vectorStore (ending stdin)
                (delivered (arrivals stdin))
                (mkWorld (trace w0 ++ [ConsoleLog banner]) (heap w0)))
      as (evs & o & Hrun & Hshape).
    exists evs, o. split.
    + unfold yields in Hrun. rewrite Hrun. cbn [trace heap].
      destruct o as [[] | e |]; cbn [fst trace];
        repeat (rewrite <- app_assoc; cbn [app]); rewrite ?app_nil_r;
        reflexivity.
    + cbn [trace] in Hshape. rewrite length_app, Nat.add_1_r in Hshape.
      exact Hshape.
  - intros Hchat Hembedding m vectorStore input w w' Hheap.
    destruct (iterate_alike env m vectorStore Hchat Hembedding 10 input [] w w'
                Hheap) as (evs & o & Hrun & Hrun').
    change (iterate env (make_executor env m vectorStore) 10 input [])
      with (invoke env (make_executor env m vectorStore) input) in Hrun, Hrun'.
    destruct (yields_produced _ _ _ _ Hrun) as (-> & _ & ->).
    destruct (yields_produced _ _ _ _ Hrun') as (-> & _ & ->).
    now split.
Qed.

Lemma turns_share_no_conversation_witness :
  (exists evs o,
     trace (fst (session (Sample.env Sample.chat_once)
                   (typed [Sample.question; "What about rent?"; "exit"])))
     = (trace (fst (boot (Sample.env Sample.chat_once)))
          ++ ConsoleLog banner
          :: evs ++ match o with Resolved _ => [RlClose] | _ => [] end)%list
     /\ loop_trace (Sample.env Sample.chat_once) EndAtPrompt 3
          [Sample.question; "What about rent?"; "exit"] evs o)
  /\ produced (invoke (Sample.env Sample.chat_once)
                 (make_executor (Sample.env Sample.chat_once) Sample.llm 0)
                 "What about rent?")
       (fst (run (Sample.env Sample.chat_once) [Sample.question]))
     = produced (invoke (Sample.env Sample.chat_once)
                   (make_executor (Sample.env Sample.chat_once) Sample.llm 0)
                   "What about rent?")
         (Sample.ready Sample.chat_once).
Proof.
  split.
  - exact (proj1 (proj2 (proj2 (proj2 (turns_share_no_conversation
                                         (Sample.env Sample.chat_once)))))
             (typed [Sample.question; "What about rent?"; "exit"])
             (fst (boot (Sample.env Sample.chat_once)))
             (make_executor (Sample.env Sample.chat_once) Sample.llm 0)
             eq_refl).
  - apply (proj2 (proj2 (proj2 (proj2 (turns_share_no_conversation
                                         (Sample.env Sample.chat_once)))))).
    + intros t t' messages. reflexivity.
    + intros t t' texts. reflexivity.
    + reflexivity.
Defined.

Example second_turn_starts_afresh :
  produced (invoke (Sample.env Sample.chat_once)
              (make_executor (Sample.env Sample.chat_once) Sample.llm 0)
              "What about rent?")
    (fst (run (Sample.env Sample.chat_once) [Sample.question]))
  = [ModelCall (formatMessages prompt "What about rent?" []);
     EmbedQuery "groceries";
     ModelCall (formatMessages prompt "What about rent?"
                  [ToolCallMessage "TransactionRetriever" "groceries"
                     Sample.csv])].
Proof. reflexivity. Qed.
